(** * Chunking miners: sentence packing, model-backed chunking, signing

    A shallow embedding of the two miner strategies of the chunking subnet
    ([chunking/miners/punkt_miner.py] and [chunking/miners/openai_miner.py])
    and of the dispatch in [neurons/miner.py], with the properties of the
    chunk sequences, of the retry policy and of the signed payload.

    Python values are modelled as follows: [str] is [string], [int] is [Z],
    [bytes] is [list byte], a [list] is a [list], a [dict] literal is an
    association list in insertion order. *)

From Stdlib Require Import String Ascii List ZArith Lia Bool Arith.
From Stdlib.Strings Require Import Byte.
Import ListNotations.

Set Warnings "-register-all".

#[local] Open Scope string_scope.
#[local] Open Scope Z_scope.

(** ** Python built-ins used by the miners *)

Module Py.

(** [len(s)] for a [str]. *)
Definition len (s : string) : Z := Z.of_nat (String.length s).

(** [sep.join(l)]. *)
Definition join (sep : string) (l : list string) : string :=
  String.concat sep l.

(** Values that [json.loads] produces and [json.dumps] consumes. An
    object keeps its pairs in insertion order. Numbers with a fraction are
    left out: no statement below looks inside a number. *)
Inductive value : Type :=
| VNone
| VBool (b : bool)
| VInt (n : Z)
| VStr (s : string)
| VList (l : list value)
| VDict (d : list (string * value)).

(** Truth value of an object, as tested by [if not x]. *)
Definition truthy (v : value) : bool :=
  match v with
  | VNone => false
  | VBool b => b
  | VInt n => negb (n =? 0)
  | VStr s => negb (String.eqb s "")
  | VList l => match l with [] => false | _ :: _ => true end
  | VDict d => match d with [] => false | _ :: _ => true end
  end.

(** [d.get(key, default)] on the pairs of a dict. When [json.loads] meets
    a key twice the later pair wins, so the lookup keeps the last match. *)
Fixpoint dict_get (d : list (string * value)) (key : string)
         (default : value) : value :=
  match d with
  | [] => default
  | (k, v) :: d' =>
      if String.eqb k key then dict_get d' key v else dict_get d' key default
  end.

(** [bytes.hex()]: two lowercase hexadecimal digits per byte. *)
Definition hex_digit (n : N) : ascii :=
  match n with
  | 0%N => "0" | 1%N => "1" | 2%N => "2" | 3%N => "3"
  | 4%N => "4" | 5%N => "5" | 6%N => "6" | 7%N => "7"
  | 8%N => "8" | 9%N => "9" | 10%N => "a" | 11%N => "b"
  | 12%N => "c" | 13%N => "d" | 14%N => "e" | _ => "f"
  end%char.

Fixpoint hex (bs : list byte) : string :=
  match bs with
  | [] => ""
  | b :: bs' =>
      let n := Byte.to_N b in
      String (hex_digit (N.div n 16)) (String (hex_digit (N.modulo n 16)) (hex bs'))
  end.

(** [str.encode(s)] on the ASCII text that [json.dumps] returns. *)
Definition encode (s : string) : list byte := list_byte_of_string s.

(** The characters [bytes.hex()] may produce. *)
Definition is_lower_hex (c : ascii) : bool :=
  let n := N_of_ascii c in
  ((48 <=? n) && (n <=? 57) || (97 <=? n) && (n <=? 102))%N.

End Py.

(** ** The request record and the process handle *)

Module Protocol.

(** [chunkSynapse], the record the miners receive, fill in and return.
    The class is declared in [chunking/protocol.py]; the fields are those
    the miners read and write. [chunks] holds the Python object a miner
    assigns, as it is; [miner_signature] is [None] until a miner sets it.
    The advisory [time_soft_max] is only logged by [Miner.forward] and is
    left out. *)
Record chunkSynapse : Type := {
  document : string;
  chunk_size : Z;
  chunk_qty : Z;
  chunks : Py.value;
  miner_signature : option string
}.

(** [self.wallet.get_hotkey()]: the signing key pair of the process. *)
Record Keypair : Type := {
  public_key : list byte;
  private_key : list byte
}.

Record Miner : Type := {
  hotkey : Keypair
}.

End Protocol.

(** ** External collaborators

    The sentence detector ([nltk.tokenize.sent_tokenize]), the JSON printer
    ([json.dumps]) and the signer ([sr25519.sign]) are libraries outside the
    repository; the miners are parametric in them. sr25519 signing draws
    fresh randomness for each signature, which the signer receives as an
    explicit first argument, before the key pair and the message. *)

Class Externals : Type := {
  sent_tokenize : string -> list string;
  json_dumps : Py.value -> string;
  sign : list byte -> list byte * list byte -> list byte -> list byte
}.

(** ** The signed response

    Both miners end with the same statements ([punkt_miner.py] lines 45-57,
    [openai_miner.py] lines 64-75): assign [synapse.chunks], build the dict
    [response_data] from the synapse, sign its serialisation. *)

Module Response.

(** The dict [response_data], read from the synapse after
    [synapse.chunks] was assigned. *)
Definition response_data (synapse : Protocol.chunkSynapse) : Py.value :=
  Py.VDict [ ("document", Py.VStr (Protocol.document synapse));
             ("chunk_size", Py.VInt (Protocol.chunk_size synapse));
             ("chunk_qty", Py.VInt (Protocol.chunk_qty synapse));
             ("chunks", Protocol.chunks synapse) ].

(** [synapse.chunks = chunks] and [synapse.miner_signature = ...]. *)
Definition set_chunks (v : Py.value) (synapse : Protocol.chunkSynapse)
  : Protocol.chunkSynapse :=
  {| Protocol.document := Protocol.document synapse;
     Protocol.chunk_size := Protocol.chunk_size synapse;
     Protocol.chunk_qty := Protocol.chunk_qty synapse;
     Protocol.chunks := v;
     Protocol.miner_signature := Protocol.miner_signature synapse |}.

Definition set_miner_signature (sig : string)
           (synapse : Protocol.chunkSynapse) : Protocol.chunkSynapse :=
  {| Protocol.document := Protocol.document synapse;
     Protocol.chunk_size := Protocol.chunk_size synapse;
     Protocol.chunk_qty := Protocol.chunk_qty synapse;
     Protocol.chunks := Protocol.chunks synapse;
     Protocol.miner_signature := Some sig |}.

(** Lines 54-57: the signature over the serialised [response_data]. *)
Definition signature {E : Externals} (self : Protocol.Miner)
           (entropy : list byte) (synapse : Protocol.chunkSynapse) : string :=
  Py.hex
    (sign entropy
          (Protocol.public_key (Protocol.hotkey self),
           Protocol.private_key (Protocol.hotkey self))
          (Py.encode (json_dumps (response_data synapse)))).

End Response.

(** ** The rule-based strategy: [punkt_miner.py] *)

Module PunktMiner.

(** The two local variables the loops of [miner_process] update. *)
Record locals : Type := {
  chunks : list string;
  document : list string
}.

(** Outcome of one pass through a [while] body. *)
Inductive ctl : Type :=
| Next (st : locals)
| Exit (st : locals).

(** [chunks[-1]]; the loops only read it after an [append]. *)
Definition chunks_last (cs : list string) : string := last cs "".

(** [chunks[-1] += x]. *)
Definition chunks_extend (cs : list string) (x : string) : list string :=
  removelast cs ++ [chunks_last cs ++ x].

(** One pass of the inner loop (lines 40-43): the loop test, the [break]
    test, then the extension of the last chunk by [document.pop(0)]. *)
Definition inner_body (chunk_size : Z) (st : locals) : ctl :=
  match document st with
  | [] => Exit st
  | s :: rest =>
      if Py.len ((chunks_last (chunks st) ++ " ") ++ s) >? chunk_size
      then Exit st
      else Next {| chunks := chunks_extend (chunks st) (" " ++ s);
                   document := rest |}
  end.

Fixpoint inner_while (fuel : nat) (chunk_size : Z) (st : locals)
  : option locals :=
  match fuel with
  | O => None
  | S fuel' =>
      match inner_body chunk_size st with
      | Exit st' => Some st'
      | Next st' => inner_while fuel' chunk_size st'
      end
  end.

(** One pass of the outer loop (lines 37-43): the loop test, the new chunk
    started from [document[0]], [del document[0]], then the inner loop.
    [None] when the inner loop ran out of fuel. *)
Definition outer_body (fuel : nat) (chunk_size : Z) (st : locals)
  : option ctl :=
  match document st with
  | [] => Some (Exit st)
  | s :: rest =>
      match inner_while fuel chunk_size
              {| chunks := chunks st ++ [s]; document := rest |} with
      | Some st' => Some (Next st')
      | None => None
      end
  end.

Fixpoint outer_while (fuel : nat) (chunk_size : Z) (st : locals)
  : option locals :=
  match fuel with
  | O => None
  | S fuel' =>
      match outer_body fuel' chunk_size st with
      | Some (Exit st') => Some st'
      | Some (Next st') => outer_while fuel' chunk_size st'
      | None => None
      end
  end.

(** Lines 36-43 from the sentence list: [chunks = []] and the loops, with
    a given amount of fuel. *)
Definition pack_fuel (fuel : nat) (chunk_size : Z) (sentences : list string)
  : option (list string) :=
  option_map chunks
    (outer_while fuel chunk_size {| chunks := []; document := sentences |}).

(** Fuel that always suffices (see [pack_fuel_enough]). *)
Definition enough_fuel (sentences : list string) : nat :=
  S (length sentences).

(** The loops as a total function of the sentence list. *)
Definition pack (chunk_size : Z) (sentences : list string) : list string :=
  match pack_fuel (enough_fuel sentences) chunk_size sentences with
  | Some cs => cs
  | None => []
  end.

(** The chunk list of lines 34-43. *)
Definition miner_chunks {E : Externals} (synapse : Protocol.chunkSynapse)
  : list string :=
  let document := sent_tokenize (Protocol.document synapse) in
  pack (Protocol.chunk_size synapse) document.

Definition miner_process {E : Externals} (self : Protocol.Miner)
           (entropy : list byte) (synapse : Protocol.chunkSynapse)
  : Protocol.chunkSynapse :=
  let chunks := miner_chunks synapse in
  let synapse := Response.set_chunks (Py.VList (map Py.VStr chunks)) synapse in
  Response.set_miner_signature (Response.signature self entropy synapse)
                               synapse.

End PunktMiner.

(** ** The model-backed strategy: [openai_miner.py] *)

Module OpenAIMiner.

(** Exceptions an attempt can end with. Every one derives from
    [Exception]. *)
Inductive exn : Type :=
| APIError          (* [chat.completions.create] failed *)
| JSONDecodeError   (* [json.loads] rejected the content *)
| AttributeError    (* the content is not a dict: it has no [get] *)
| ValueError (msg : string).

(** What one call of the external service leads to at line 58: the call
    (or the access to its first choice) raises, [json.loads] rejects the
    content, or [json.loads] yields a value. The system prompt built from
    [chunk_qty] and [chunk_size] and the model name only travel to the
    service; its reply is arbitrary. *)
Inductive reply : Type :=
| CallFails
| NotJson
| Content (content : Py.value).

(** Statements of [miner_process] run on the synapse object of the
    caller and may raise: a state and exception monad. *)
Definition M (A : Type) : Type :=
  Protocol.chunkSynapse -> (exn + A) * Protocol.chunkSynapse.

Definition ret {A} (a : A) : M A := fun s => (inr a, s).

Definition bind {A B} (m : M A) (k : A -> M B) : M B :=
  fun s =>
    match m s with
    | (inr a, s') => k a s'
    | (inl e, s') => (inl e, s')
    end.

Definition raise {A} (e : exn) : M A := fun s => (inl e, s).

Definition get : M Protocol.chunkSynapse := fun s => (inr s, s).

Definition modify (f : Protocol.chunkSynapse -> Protocol.chunkSynapse)
  : M unit := fun s => (inr tt, f s).

Notation "x <- m ;; k" := (bind m (fun x => k))
  (at level 61, m at next level, right associativity).
Notation "m ;; k" := (bind m (fun _ => k))
  (at level 61, right associativity).

Definition value_error_message : string :=
  "Response does not contain 'chunks' or 'chunks' is empty".

(** Lines 50-58: the service call and [json.loads] on its content. *)
Definition load_content (r : reply) : M Py.value :=
  match r with
  | CallFails => raise APIError
  | NotJson => raise JSONDecodeError
  | Content content => ret content
  end.

(** Line 59: [content.get("chunks", [])]. *)
Definition content_get_chunks (content : Py.value) : M Py.value :=
  match content with
  | Py.VDict d => ret (Py.dict_get d "chunks" (Py.VList []))
  | _ => raise AttributeError
  end.

(** The body of [miner_process] (lines 36-77), given the reply of the
    service to this call. *)
Definition miner_process_body {E : Externals} (self : Protocol.Miner)
           (entropy : list byte) (r : reply) : M unit :=
  content <- load_content r ;;
  chunks <- content_get_chunks content ;;
  if negb (Py.truthy chunks) then raise (ValueError value_error_message)
  else
    modify (Response.set_chunks chunks) ;;
    synapse <- get ;;
    modify (Response.set_miner_signature
              (Response.signature self entropy synapse)).

(** What the decorated function does to the outside world. *)
Inductive event : Type :=
| Call           (* one run of the body, with its service call *)
| Sleep (d : Z). (* [time.sleep(d)] *)

Inductive outcome : Type :=
| Returned          (* the body returned [synapse] *)
| Raised (e : exn)  (* the last exception, re-raised to the caller *)
| NotCalled.        (* [tries = 0]: the body never ran *)

Record run : Type := {
  out : outcome;
  events : list event;
  synapse_after : Protocol.chunkSynapse
}.

(** Modelled from the spec: the [retry] decorator of lines 30-34 comes
    from the [retry] package, whose code is not part of the repository.
    It runs the function up to [tries] times; any exception ends the
    attempt; between two attempts it sleeps for the current delay, which
    starts at [delay] and is multiplied by [backoff] after each sleep; the
    exception of the last attempt is raised to the caller without a
    sleep. [f k] is the body at its [k]-th run. *)
Fixpoint retry_internal (f : nat -> M unit) (tries : nat) (delay backoff : Z)
         (k : nat) (trace : list event) (synapse : Protocol.chunkSynapse)
  : run :=
  match tries with
  | O => {| out := NotCalled; events := trace; synapse_after := synapse |}
  | S tries' =>
      match f k synapse with
      | (inr _, synapse') =>
          {| out := Returned; events := trace ++ [Call];
             synapse_after := synapse' |}
      | (inl e, synapse') =>
          match tries' with
          | O => {| out := Raised e; events := trace ++ [Call];
                    synapse_after := synapse' |}
          | S _ =>
              retry_internal f tries' (delay * backoff) backoff (S k)
                             (trace ++ [Call; Sleep delay]) synapse'
          end
      end
  end.

(** [miner_process] as decorated: [@retry(tries=3, delay=1, backoff=2)].
    [service k] is the reply of the external service to the [k]-th call
    made for this request. *)
Definition miner_process {E : Externals} (self : Protocol.Miner)
           (entropy : list byte) (service : nat -> reply)
           (synapse : Protocol.chunkSynapse) : run :=
  retry_internal (fun k => miner_process_body self entropy (service k))
                 3 1 2 0 [] synapse.

(** The sleeps and the number of calls of a run. *)
Fixpoint delays (tr : list event) : list Z :=
  match tr with
  | [] => []
  | Sleep d :: tr' => d :: delays tr'
  | Call :: tr' => delays tr'
  end.

Fixpoint calls (tr : list event) : nat :=
  match tr with
  | [] => O
  | Call :: tr' => S (calls tr')
  | Sleep _ :: tr' => calls tr'
  end.

End OpenAIMiner.

(** ** Strategy selection and dispatch: [neurons/miner.py] *)

Module Neuron.

Inductive strategy : Type := Punkt | OpenAI.

(** [Miner.__init__] (lines 40-48): the module
    [chunking.miners.<name>_miner] of the configured name, the rule-based
    one when no name is configured. The repository has two such modules;
    importing any other name fails. *)
Definition select (name : option string) : option strategy :=
  match name with
  | None => Some Punkt
  | Some n =>
      if String.eqb n "punkt" then Some Punkt
      else if String.eqb n "openai" then Some OpenAI
      else None
  end.

(** [Miner.forward]: the request goes to the selected [miner_process]. *)
Definition forward {E : Externals} (st : strategy) (self : Protocol.Miner)
           (entropy : list byte) (service : nat -> OpenAIMiner.reply)
           (synapse : Protocol.chunkSynapse) : OpenAIMiner.run :=
  match st with
  | Punkt =>
      {| OpenAIMiner.out := OpenAIMiner.Returned;
         OpenAIMiner.events := [];
         OpenAIMiner.synapse_after :=
           PunktMiner.miner_process self entropy synapse |}
  | OpenAI => OpenAIMiner.miner_process self entropy service synapse
  end.

End Neuron.

(** ** Concrete collaborators for the examples

    Simple stand-ins with the types of the external libraries: a sentence
    splitter, a JSON printer and a signer. The examples and concrete
    instances below run the miners with them; the lemmas about the miners
    hold for every [Externals]. *)

Module Demo.

Definition is_space (c : ascii) : bool :=
  let n := N_of_ascii c in ((n =? 32) || ((9 <=? n) && (n <=? 13)))%N.

Definition is_terminator (c : ascii) : bool :=
  let n := N_of_ascii c in ((n =? 46) || (n =? 33) || (n =? 63))%N.

(** Cuts the text at white space that follows [.], [!] or [?]; [cur] is
    the sentence read so far and [ended] tells whether its last character
    is such a mark. White space before a sentence is skipped and an empty
    sentence is never produced. *)
Fixpoint split_sentences (cur : string) (ended : bool) (text : string)
  : list string :=
  match text with
  | EmptyString => if String.eqb cur "" then [] else [cur]
  | String c text' =>
      if is_space c then
        if ended then cur :: split_sentences "" false text'
        else if String.eqb cur "" then split_sentences "" false text'
             else split_sentences (cur ++ String c "") false text'
      else split_sentences (cur ++ String c "") (is_terminator c) text'
  end.

Definition demo_sent_tokenize (text : string) : list string :=
  split_sentences "" false text.

Definition quote : string := String (ascii_of_nat 34) "".

(** Escapes the quote and the backslash, which suffices for the texts of
    the examples. *)
Fixpoint escape (s : string) : string :=
  match s with
  | EmptyString => ""
  | String c s' =>
      let n := N_of_ascii c in
      if ((n =? 34) || (n =? 92))%N
      then String (ascii_of_nat 92) (String c (escape s'))
      else String c (escape s')
  end.

Definition digit (n : N) : ascii := ascii_of_N (48 + n).

Fixpoint decimal_digits (fuel : nat) (n : N) (acc : string) : string :=
  match fuel with
  | O => acc
  | S fuel' =>
      let acc' := String (digit (N.modulo n 10)) acc in
      if (n <? 10)%N then acc' else decimal_digits fuel' (N.div n 10) acc'
  end.

Definition decimal (z : Z) : string :=
  let n := Z.abs_N z in
  let body := decimal_digits (S (N.to_nat (N.log2 n))) n "" in
  if z <? 0 then "-" ++ body else body.

(** [json.dumps] with its default separators. *)
Fixpoint demo_json_dumps (v : Py.value) : string :=
  match v with
  | Py.VNone => "null"
  | Py.VBool true => "true"
  | Py.VBool false => "false"
  | Py.VInt n => decimal n
  | Py.VStr s => quote ++ escape s ++ quote
  | Py.VList l => "[" ++ String.concat ", " (map demo_json_dumps l) ++ "]"
  | Py.VDict d =>
      "{" ++ String.concat ", "
               (map (fun kv => quote ++ escape (fst kv) ++ quote ++ ": "
                               ++ demo_json_dumps (snd kv)) d) ++ "}"
  end.

(** A 64-byte value that depends on the randomness, the private key and
    the message; it has the shape of a signature and none of its
    security. *)
Definition demo_sign (entropy : list byte) (keypair : list byte * list byte)
           (message : list byte) : list byte :=
  firstn 64 (entropy ++ snd keypair ++ message ++ repeat x00%byte 64).

#[export] Instance demo_externals : Externals := {
  sent_tokenize := demo_sent_tokenize;
  json_dumps := demo_json_dumps;
  sign := demo_sign
}.

Definition demo_miner : Protocol.Miner :=
  {| Protocol.hotkey := {| Protocol.public_key := [x01; x02]%byte;
                           Protocol.private_key := [x0a; x0b]%byte |} |}.

Definition demo_entropy : list byte := [x2a; x17]%byte.

(** A request as it arrives: no chunks, no signature. *)
Definition request (document : string) (chunk_size chunk_qty : Z)
  : Protocol.chunkSynapse :=
  {| Protocol.document := document;
     Protocol.chunk_size := chunk_size;
     Protocol.chunk_qty := chunk_qty;
     Protocol.chunks := Py.VNone;
     Protocol.miner_signature := None |}.

End Demo.


(** ** A functional reading of the packing loops

    The loops of [punkt_miner.py] written as recursion on the sentence
    list; [PunktMiner.pack] is shown below to compute the same chunks. The
    proofs about chunk sequences go through these functions. *)

Module PackSpec.

(** The inner loop, from the current last chunk and the remaining
    sentences: the finished chunk and what is left. *)
Fixpoint extend (chunk_size : Z) (cur : string) (doc : list string)
  : string * list string :=
  match doc with
  | [] => (cur, [])
  | s :: rest =>
      if Py.len ((cur ++ " ") ++ s) >? chunk_size then (cur, doc)
      else extend chunk_size (cur ++ " " ++ s) rest
  end.

(** All chunks from the current last chunk and the remaining sentences. *)
Fixpoint pack_from (chunk_size : Z) (cur : string) (doc : list string)
  : list string :=
  match doc with
  | [] => [cur]
  | s :: rest =>
      if Py.len ((cur ++ " ") ++ s) >? chunk_size
      then cur :: pack_from chunk_size s rest
      else pack_from chunk_size (cur ++ " " ++ s) rest
  end.

Definition pack_spec (chunk_size : Z) (doc : list string) : list string :=
  match doc with
  | [] => []
  | s :: rest => pack_from chunk_size s rest
  end.

(** A group of consecutive sentences may form a chunk when it is a single
    sentence or when its join fits the size. *)
Definition fits (chunk_size : Z) (g : list string) : Prop :=
  Py.len (Py.join " " g) <= chunk_size \/ exists s, g = [s].

End PackSpec.

(** The exception one attempt of the model-backed miner ends with, read
    off the reply alone. *)
Definition failure (r : OpenAIMiner.reply) : option OpenAIMiner.exn :=
  match r with
  | OpenAIMiner.CallFails => Some OpenAIMiner.APIError
  | OpenAIMiner.NotJson => Some OpenAIMiner.JSONDecodeError
  | OpenAIMiner.Content (Py.VDict d) =>
      if Py.truthy (Py.dict_get d "chunks" (Py.VList [])) then None
      else Some (OpenAIMiner.ValueError OpenAIMiner.value_error_message)
  | OpenAIMiner.Content _ => Some OpenAIMiner.AttributeError
  end.

Definition fails (r : OpenAIMiner.reply) : bool :=
  match failure r with Some _ => true | None => false end.

(** The object an accepted reply carries under ["chunks"]. *)
Definition accepted_chunks (r : OpenAIMiner.reply) : Py.value :=
  match r with
  | OpenAIMiner.Content (Py.VDict d) => Py.dict_get d "chunks" (Py.VList [])
  | _ => Py.VNone
  end.

(** The synapse after an attempt that accepted the reply [r]. *)
Definition accept {E : Externals} (self : Protocol.Miner)
           (entropy : list byte) (r : OpenAIMiner.reply)
           (synapse : Protocol.chunkSynapse) : Protocol.chunkSynapse :=
  let synapse := Response.set_chunks (accepted_chunks r) synapse in
  Response.set_miner_signature (Response.signature self entropy synapse)
                               synapse.

(** Whether a chunks object is a list with at least one non-empty
    string. *)
Definition has_nonempty_chunk (v : Py.value) : bool :=
  match v with
  | Py.VList l =>
      existsb (fun x => match x with
                        | Py.VStr c => negb (String.eqb c "")
                        | _ => false
                        end) l
  | _ => false
  end.

(** ** Greedy groups

    [maximal chunk_size groups]: no group could have taken the first
    sentence of the group that follows it. *)

Module Greedy.

Fixpoint maximal (chunk_size : Z) (groups : list (list string)) : Prop :=
  match groups with
  | [] => True
  | g :: tl =>
      match tl with
      | [] => True
      | [] :: _ => False
      | (s :: _) :: _ => chunk_size < Py.len ((Py.join " " g ++ " ") ++ s)
      end
      /\ maximal chunk_size tl
  end.

End Greedy.

(** ** Admission control: [Miner.blacklist] and [Miner.priority]

    The metagraph gives, per uid, a hotkey, a validator permit and a
    stake. Stakes are Python floats; the functions only compare them, so
    the model is parametric in the number type and in its [<]. A tensor or
    list index out of range raises [IndexError]. *)

Module Admission.

Inductive error : Type :=
| ValueError   (* [list.index]: the value is not in the list *)
| IndexError.  (* index out of range *)

Record Metagraph (number : Type) : Type := {
  hotkeys : list string;
  validator_permit : list bool;
  S : list number
}.

Arguments hotkeys {number} _.
Arguments validator_permit {number} _.
Arguments S {number} _.

(** [self.config.blacklist]. *)
Record BlacklistConfig (number : Type) : Type := {
  allow_non_registered : bool;
  force_validator_permit : bool;
  minimum_stake : number
}.

Arguments allow_non_registered {number} _.
Arguments force_validator_permit {number} _.
Arguments minimum_stake {number} _.

(** [l.index(x)] from position [i]: the first position that holds [x]. *)
Fixpoint index_from (i : nat) (l : list string) (x : string) : option nat :=
  match l with
  | [] => None
  | y :: l' =>
      if String.eqb y x then Some i else index_from (Datatypes.S i) l' x
  end.

(** [self.metagraph.hotkeys.index(synapse.dendrite.hotkey)]; the hotkey of
    a request is a [str] or [None], and [None] equals no hotkey of the
    list. *)
Definition hotkeys_index {number} (metagraph : Metagraph number)
           (hotkey : option string) : error + nat :=
  match hotkey with
  | None => inl ValueError
  | Some h =>
      match index_from 0 (hotkeys metagraph) h with
      | Some uid => inr uid
      | None => inl ValueError
      end
  end.

(** [not synapse.dendrite.hotkey]: [None] and the empty string are falsy. *)
Definition hotkey_falsy (hotkey : option string) : bool :=
  match hotkey with
  | None => true
  | Some h => String.eqb h ""
  end.

(** [synapse.dendrite.hotkey in self.metagraph.hotkeys]. *)
Definition hotkey_in {number} (metagraph : Metagraph number)
           (hotkey : option string) : bool :=
  match hotkey with
  | None => false
  | Some h => existsb (String.eqb h) (hotkeys metagraph)
  end.

(** [Miner.blacklist] (lines 104-146): whether the request is to be
    ignored, and why. *)
Definition blacklist {number} (lt : number -> number -> bool)
           (config : BlacklistConfig number) (metagraph : Metagraph number)
           (hotkey : option string) : error + bool * string :=
  match hotkeys_index metagraph hotkey with
  | inl e => inl e
  | inr uid =>
      if hotkey_falsy hotkey || negb (hotkey_in metagraph hotkey) then
        if allow_non_registered config
        then inr (false, "Allowing un-registered hotkey")
        else inr (true, "Unrecognized hotkey")
      else
        match nth_error (validator_permit metagraph) uid with
        | None => inl IndexError
        | Some permit =>
            if negb permit then
              if force_validator_permit config
              then inr (true, "Non-validator hotkey")
              else inr (false, "Validator permit not required")
            else
              match nth_error (S metagraph) uid with
              | None => inl IndexError
              | Some stake =>
                  if lt stake (minimum_stake config)
                  then inr (true, "Insufficient stake")
                  else inr (false, "Hotkey recognized!")
              end
        end
  end.

(** [Miner.priority] (lines 168-177): the stake of the caller. *)
Definition priority {number} (metagraph : Metagraph number)
           (hotkey : option string) : error + number :=
  match hotkeys_index metagraph hotkey with
  | inl e => inl e
  | inr caller_uid =>
      match nth_error (S metagraph) caller_uid with
      | Some stake => inr stake
      | None => inl IndexError
      end
  end.

End Admission.

(** ** Detector data: [download_nltk_data] and [miner_init] of
    [punkt_miner.py]

    The data directory of NLTK is an abstract store; [find] tells whether
    a resource is in it and [download] is the effect of [nltk.download],
    whose result the code does not look at. *)

Module NltkData.

Inductive event : Type :=
| Debug (message : string)     (* [bt.logging.debug] *)
| Download (package : string). (* [nltk.download(package, quiet=True)] *)

(** Lines 11-20. *)
Definition download_nltk_data {store : Type}
           (find : string -> store -> bool)
           (download : string -> store -> store)
           (package_name : string) (st : store) : store * list event :=
  if find ("tokenizers/" ++ package_name) st then
    (st, [Debug (package_name ++ " already exists. No need to download.")])
  else
    (download package_name st,
     [Debug (package_name ++ " not found. Downloading...");
      Download package_name;
      Debug (package_name ++ " download completed.")]).

(** Lines 23-27. *)
Definition miner_init {store : Type}
           (find : string -> store -> bool)
           (download : string -> store -> store) (st : store)
  : store * list event :=
  download_nltk_data find download "punkt" st.

(** The packages a run asked [nltk.download] for. *)
Fixpoint downloads (tr : list event) : list string :=
  match tr with
  | [] => []
  | Download p :: tr' => p :: downloads tr'
  | Debug _ :: tr' => downloads tr'
  end.

End NltkData.

(** ** The module name of the configured miner: [Miner.__init__] *)

Module Selector.

(** Lines 41-44; [None] when the configuration has no [miner.name]. *)
Definition miner_name (name : option string) : string :=
  match name with
  | Some n => "chunking.miners." ++ n ++ "_miner"
  | None => "chunking.miners.punkt_miner"
  end.

End Selector.

(** * Properties *)

(** ** The miners on concrete inputs *)

Example pack_sentence_per_chunk :
  PunktMiner.pack 15 ["Sentence one."; "Sentence two."; "Sentence three."]
  = ["Sentence one."; "Sentence two."; "Sentence three."].
Proof. vm_compute. reflexivity. Qed.

Example pack_one_chunk :
  PunktMiner.pack 100 ["Hi."; "Bye."] = ["Hi. Bye."].
Proof. vm_compute. reflexivity. Qed.

(** A sentence longer than the size stands alone; its neighbours are packed
    around it. *)
Example pack_oversized_sentence :
  PunktMiner.pack 8 ["Hi."; "Bye."; "A much longer sentence."; "Ok."; "So."]
  = ["Hi. Bye."; "A much longer sentence."; "Ok. So."].
Proof. vm_compute. reflexivity. Qed.

Example pack_fuel_runs_out :
  PunktMiner.pack_fuel 2 100 ["Hi."; "Bye."; "Ok."] = None.
Proof. vm_compute. reflexivity. Qed.

Example hex_bytes : Py.hex [x00; xff; x1a]%byte = "00ff1a".
Proof. vm_compute. reflexivity. Qed.

(** The second attempt succeeds: one sleep of 1, and the synapse carries
    the chunks of the second reply. *)
Example second_attempt_succeeds :
  let service := fun k : nat =>
    match k with
    | O => OpenAIMiner.NotJson
    | _ => OpenAIMiner.Content (Py.VDict [("chunks", Py.VList [Py.VStr "Hi."])])
    end in
  let r := OpenAIMiner.miner_process (E := Demo.demo_externals)
             Demo.demo_miner Demo.demo_entropy service
             (Demo.request "Hi." 100 1) in
  OpenAIMiner.out r = OpenAIMiner.Returned
  /\ OpenAIMiner.events r
     = [OpenAIMiner.Call; OpenAIMiner.Sleep 1; OpenAIMiner.Call]
  /\ Protocol.chunks (OpenAIMiner.synapse_after r) = Py.VList [Py.VStr "Hi."].
Proof. vm_compute. repeat split. Qed.

(** ** Strings and joins *)

Lemma append_assoc (a b c : string) : (a ++ b) ++ c = a ++ (b ++ c).
Proof. induction a as [|x a IH]; simpl; [reflexivity | now rewrite IH]. Qed.

Lemma length_append (a b : string) :
  String.length (a ++ b) = (String.length a + String.length b)%nat.
Proof. induction a as [|x a IH]; simpl; [reflexivity | now rewrite IH]. Qed.

Lemma len_append (a b : string) : Py.len (a ++ b) = Py.len a + Py.len b.
Proof. unfold Py.len. rewrite length_append. lia. Qed.

Lemma len_nonneg (a : string) : 0 <= Py.len a.
Proof. unfold Py.len. lia. Qed.

Lemma join_cons (sep x : string) (l : list string) :
  l <> [] -> Py.join sep (x :: l) = x ++ sep ++ Py.join sep l.
Proof. destruct l; [congruence | reflexivity]. Qed.

Lemma join_snoc (sep x : string) (l : list string) :
  l <> [] -> Py.join sep (l ++ [x])%list = Py.join sep l ++ sep ++ x.
Proof.
  induction l as [|y l IH]; [congruence | intros _].
  destruct l as [|z l].
  - reflexivity.
  - change ((y :: z :: l) ++ [x])%list with (y :: ((z :: l) ++ [x]))%list.
    rewrite join_cons by (destruct l; discriminate).
    rewrite IH by discriminate.
    rewrite (join_cons sep y (z :: l)) by discriminate.
    now rewrite !append_assoc.
Qed.

Lemma join_app (sep : string) (l1 l2 : list string) :
  l1 <> [] -> l2 <> [] ->
  Py.join sep (l1 ++ l2)%list = Py.join sep l1 ++ sep ++ Py.join sep l2.
Proof.
  induction l1 as [|y l1 IH]; [congruence | intros _ H2].
  destruct l1 as [|z l1].
  - simpl app. now rewrite join_cons.
  - change ((y :: z :: l1) ++ l2)%list with (y :: ((z :: l1) ++ l2))%list.
    rewrite join_cons by discriminate.
    rewrite IH by (discriminate || assumption).
    rewrite (join_cons sep y (z :: l1)) by discriminate.
    now rewrite !append_assoc.
Qed.

(** The join of a group that starts with a non-empty sentence is not
    empty. *)
Lemma join_nonempty (sep : string) (l : list string) :
  l <> [] -> Forall (fun s => s <> "") l -> Py.join sep l <> "".
Proof.
  destruct l as [|x l]; [congruence | intros _ H].
  inversion H as [|? ? Hx _]; subst.
  destruct l.
  - exact Hx.
  - rewrite join_cons by discriminate.
    destruct x; [congruence | discriminate].
Qed.

(** ** The loops of the rule-based miner *)

Section Loops.

Import PunktMiner PackSpec.
Variable chunk_size : Z.

Lemma chunks_last_snoc (cs : list string) (c : string) :
  chunks_last (cs ++ [c]) = c.
Proof. unfold chunks_last. apply last_last. Qed.

Lemma chunks_extend_snoc (cs : list string) (c x : string) :
  chunks_extend (cs ++ [c]) x = (cs ++ [(c ++ x)%string])%list.
Proof.
  unfold chunks_extend. now rewrite removelast_last, chunks_last_snoc.
Qed.

(** An inner pass that goes on has popped exactly one sentence; a pass
    that leaves the loop changes nothing. *)
Lemma inner_body_pops (st : locals) :
  match inner_body chunk_size st with
  | Next st' => S (length (document st')) = length (document st)
  | Exit st' => st' = st
  end.
Proof.
  unfold inner_body. destruct (document st) as [|s rest].
  - reflexivity.
  - destruct (_ >? _); reflexivity.
Qed.

Lemma extend_length (doc : list string) :
  forall cur, (length (snd (extend chunk_size cur doc)) <= length doc)%nat.
Proof.
  induction doc as [|s rest IH]; intro cur; simpl.
  - lia.
  - destruct (_ >? _); [simpl; lia |].
    etransitivity; [apply IH | lia].
Qed.

(** The inner loop started on a chunk list that ends with [c]. *)
Lemma inner_while_spec (doc : list string) :
  forall fuel cs c,
    (length doc < fuel)%nat ->
    inner_while fuel chunk_size {| chunks := cs ++ [c]; document := doc |}
    = Some {| chunks := cs ++ [fst (extend chunk_size c doc)];
              document := snd (extend chunk_size c doc) |}.
Proof.
  induction doc as [|s rest IH]; intros fuel cs c Hf;
    (destruct fuel as [|fuel]; [simpl in Hf; lia |]).
  - reflexivity.
  - simpl. unfold inner_body. simpl. rewrite chunks_last_snoc.
    destruct (_ >? _).
    + reflexivity.
    + rewrite chunks_extend_snoc. apply IH. simpl in Hf. lia.
Qed.

Lemma pack_from_extend (doc : list string) :
  forall cur,
    pack_from chunk_size cur doc
    = fst (extend chunk_size cur doc)
        :: pack_spec chunk_size (snd (extend chunk_size cur doc)).
Proof.
  induction doc as [|s rest IH]; intro cur; simpl.
  - reflexivity.
  - destruct (_ >? _); [reflexivity | apply IH].
Qed.

(** An outer pass with fuel for its inner loop removes at least one
    sentence, or leaves the loop on an empty sentence list. *)
Lemma outer_body_pops (st : locals) (k : nat) :
  match outer_body (length (document st) + k) chunk_size st with
  | Some (Next st') => (length (document st') < length (document st))%nat
  | Some (Exit st') => st' = st /\ document st = []
  | None => False
  end.
Proof.
  unfold outer_body. destruct (document st) as [|s rest] eqn:E.
  - now split.
  - destruct (chunks st ++ [s])%list as [|c0 cs0] eqn:Ec.
    { now destruct (chunks st). }
    destruct (exists_last (l := c0 :: cs0) ltac:(discriminate))
      as (cs & c & Ecs).
    rewrite Ecs, inner_while_spec by (simpl; lia). simpl.
    pose proof (extend_length rest c). lia.
Qed.

Lemma outer_while_spec (fuel : nat) :
  forall cs doc,
    (length doc < fuel)%nat ->
    outer_while fuel chunk_size {| chunks := cs; document := doc |}
    = Some {| chunks := cs ++ pack_spec chunk_size doc; document := [] |}.
Proof.
  induction fuel as [|fuel IH]; intros cs doc Hf; [lia |].
  destruct doc as [|s rest]; simpl.
  - now rewrite app_nil_r.
  - unfold outer_body. simpl. simpl in Hf.
    rewrite inner_while_spec by lia.
    rewrite IH by (pose proof (extend_length rest s); lia).
    rewrite pack_from_extend, <- app_assoc. reflexivity.
Qed.

Lemma pack_fuel_enough (sentences : list string) (k : nat) :
  pack_fuel (S (length sentences) + k) chunk_size sentences
  = Some (pack_spec chunk_size sentences).
Proof.
  unfold pack_fuel. rewrite outer_while_spec by lia. reflexivity.
Qed.

Lemma pack_eq_spec (sentences : list string) :
  pack chunk_size sentences = pack_spec chunk_size sentences.
Proof.
  unfold pack, enough_fuel.
  pose proof (pack_fuel_enough sentences 0) as E.
  rewrite Nat.add_0_r in E. now rewrite E.
Qed.

Lemma pack_from_length (doc : list string) :
  forall cur, (1 <= length (pack_from chunk_size cur doc) <= S (length doc))%nat.
Proof.
  induction doc as [|s rest IH]; intro cur; simpl.
  - lia.
  - destruct (_ >? _).
    + specialize (IH s). simpl. lia.
    + pose proof (IH (cur ++ " " ++ s)) as H. simpl in H |- *. lia.
Qed.

Lemma pack_length (sentences : list string) :
  (length (pack chunk_size sentences) <= length sentences)%nat.
Proof.
  rewrite pack_eq_spec. destruct sentences as [|s rest]; simpl.
  - lia.
  - pose proof (pack_from_length rest s). lia.
Qed.

(** No chunks exactly when there are no sentences. *)
Lemma pack_nil_iff (sentences : list string) :
  pack chunk_size sentences = [] <-> sentences = [].
Proof.
  rewrite pack_eq_spec. destruct sentences as [|s rest]; simpl.
  - tauto.
  - pose proof (pack_from_length rest s) as H.
    split; [intro E; rewrite E in H; simpl in H; lia | discriminate].
Qed.

End Loops.

(** ** Chunks as groups of consecutive sentences *)

Section Groups.

Import PackSpec.
Variable chunk_size : Z.

Lemma pack_from_groups (doc : list string) :
  forall g,
    g <> [] -> fits chunk_size g ->
    exists groups,
      concat groups = (g ++ doc)%list
      /\ map (Py.join " ") groups = pack_from chunk_size (Py.join " " g) doc
      /\ Forall (fun grp => grp <> [] /\ fits chunk_size grp) groups.
Proof.
  induction doc as [|s rest IH]; intros g Hg Hfit.
  - exists [g]. simpl. rewrite !app_nil_r. repeat split.
    constructor; [now split | constructor].
  - simpl. destruct (Z.gtb_spec (Py.len ((Py.join " " g ++ " ") ++ s))
                                chunk_size) as [Hbig | Hfits].
    + destruct (IH [s]) as (groups & Hc & Hm & Hall).
      { discriminate. }
      { right. now exists s. }
      exists (g :: groups). simpl. rewrite Hc.
      split; [reflexivity |]. split.
      * f_equal. exact Hm.
      * constructor; [now split | exact Hall].
    + destruct (IH (g ++ [s])%list) as (groups & Hc & Hm & Hall).
      { now destruct g. }
      { left. rewrite join_snoc, <- append_assoc by exact Hg. exact Hfits. }
      exists groups. rewrite Hc, <- app_assoc. split; [reflexivity |].
      split; [| exact Hall].
      rewrite Hm, join_snoc by exact Hg. reflexivity.
Qed.

(** The chunks are the joins of a partition of the sentence list into
    non-empty groups, each a single sentence or a join that fits. *)
Lemma pack_groups (sentences : list string) :
  exists groups,
    concat groups = sentences
    /\ map (Py.join " ") groups = PunktMiner.pack chunk_size sentences
    /\ Forall (fun grp => grp <> [] /\ fits chunk_size grp) groups.
Proof.
  rewrite pack_eq_spec. destruct sentences as [|s rest].
  - exists []. repeat split. constructor.
  - destruct (pack_from_groups rest [s]) as (groups & Hc & Hm & Hall).
    { discriminate. }
    { right. now exists s. }
    exists groups. repeat split; assumption.
Qed.

Lemma concat_nonempty (groups : list (list string)) :
  groups <> [] -> Forall (fun g => g <> []) groups -> concat groups <> [].
Proof.
  destruct groups as [|g gs]; [congruence | intros _ H].
  inversion H as [|? ? Hg _]; subst. simpl. now destruct g.
Qed.

(** Joining the joins of the groups is joining all the sentences. *)
Lemma join_concat (sep : string) (groups : list (list string)) :
  Forall (fun g => g <> []) groups ->
  Py.join sep (map (Py.join sep) groups) = Py.join sep (concat groups).
Proof.
  induction groups as [|g gs IH]; intro H; [reflexivity |].
  inversion H as [|? ? Hg Hgs]; subst.
  destruct gs as [|g' gs].
  - simpl. now rewrite app_nil_r.
  - change (map (Py.join sep) (g :: g' :: gs))
      with (Py.join sep g :: map (Py.join sep) (g' :: gs)).
    rewrite join_cons by discriminate.
    rewrite IH by exact Hgs.
    change (concat (g :: g' :: gs)) with (g ++ concat (g' :: gs))%list.
    rewrite join_app; [reflexivity | exact Hg |].
    apply concat_nonempty; [discriminate | exact Hgs].
Qed.

End Groups.

(** ** The rule-based miner *)

Section RuleBased.

Context `{Externals}.
Variable self : Protocol.Miner.
Variable entropy : list byte.

Lemma punkt_chunks (synapse : Protocol.chunkSynapse) :
  Protocol.chunks (PunktMiner.miner_process self entropy synapse)
  = Py.VList (map Py.VStr (PunktMiner.miner_chunks synapse)).
Proof. reflexivity. Qed.

Lemma punkt_fields (synapse : Protocol.chunkSynapse) :
  let synapse' := PunktMiner.miner_process self entropy synapse in
  Protocol.document synapse' = Protocol.document synapse
  /\ Protocol.chunk_size synapse' = Protocol.chunk_size synapse
  /\ Protocol.chunk_qty synapse' = Protocol.chunk_qty synapse.
Proof. repeat split. Qed.

(** Chunks of non-empty sentences are non-empty. *)
Lemma punkt_chunks_nonempty (synapse : Protocol.chunkSynapse) :
  Forall (fun s => s <> "") (sent_tokenize (Protocol.document synapse)) ->
  Forall (fun c => c <> "") (PunktMiner.miner_chunks synapse).
Proof.
  intro Hs. unfold PunktMiner.miner_chunks.
  destruct (pack_groups (Protocol.chunk_size synapse)
              (sent_tokenize (Protocol.document synapse)))
    as (groups & Hc & Hm & Hall).
  rewrite <- Hm. rewrite <- Hc in Hs. clear Hc Hm.
  induction Hall as [|g gs [Hg _] _ IH]; simpl; constructor.
  - apply join_nonempty; [exact Hg |].
    simpl in Hs. apply Forall_app in Hs. tauto.
  - apply IH. simpl in Hs. apply Forall_app in Hs. tauto.
Qed.

End RuleBased.

(** ** Claims about the rule-based miner *)

(** C1. For every document and every [chunk_size] (positive or not), each
    chunk the rule-based miner emits has length at most [chunk_size],
    except a chunk that is one whole sentence longer than [chunk_size]:
    the chunks are the joins of a partition of the sentence list into
    consecutive groups, and a group whose join exceeds [chunk_size]
    consists of that single sentence, neither extended nor split. *)
Theorem rule_based_chunk_bound
        (E : Externals) (self : Protocol.Miner) (entropy : list byte)
        (synapse : Protocol.chunkSynapse) :
  let sentences := sent_tokenize (Protocol.document synapse) in
  let chunk_size := Protocol.chunk_size synapse in
  exists groups : list (list string),
    concat groups = sentences
    /\ Protocol.chunks (PunktMiner.miner_process self entropy synapse)
       = Py.VList (map Py.VStr (map (Py.join " ") groups))
    /\ Forall (fun g =>
                 Py.len (Py.join " " g) <= chunk_size
                 \/ exists s, g = [s] /\ In s sentences
                              /\ chunk_size < Py.len s) groups.
Proof.
  intros sentences chunk_size.
  destruct (pack_groups chunk_size sentences) as (groups & Hc & Hm & Hall).
  exists groups. split; [exact Hc |]. split.
  - rewrite punkt_chunks. unfold PunktMiner.miner_chunks.
    fold sentences chunk_size. now rewrite Hm.
  - apply Forall_forall. intros g Hin.
    rewrite Forall_forall in Hall. destruct (Hall g Hin) as [_ [Hle | [s Hs]]].
    + now left.
    + subst g. destruct (Z_le_gt_dec (Py.len s) chunk_size) as [Hle | Hgt].
      * now left.
      * right. exists s. split; [reflexivity |]. split; [| lia].
        rewrite <- Hc. apply in_concat. exists [s]. split; [exact Hin |].
        now left.
Qed.

(** C7. For every document, the chunks of the rule-based miner are the
    single-space joins of consecutive non-empty groups of the sentences
    taken in their order, so the single-space join of the chunks equals the
    single-space join of the sentence sequence; and every chunk is
    non-empty, the sentences of the detector being non-empty. *)
Theorem rule_based_lossless
        (E : Externals) (self : Protocol.Miner) (entropy : list byte)
        (synapse : Protocol.chunkSynapse) :
  let sentences := sent_tokenize (Protocol.document synapse) in
  let chunks := PunktMiner.miner_chunks synapse in
  Protocol.chunks (PunktMiner.miner_process self entropy synapse)
  = Py.VList (map Py.VStr chunks)
  /\ Py.join " " chunks = Py.join " " sentences
  /\ (exists groups : list (list string),
         Forall (fun g => g <> []) groups
         /\ concat groups = sentences
         /\ chunks = map (Py.join " ") groups)
  /\ (Forall (fun s => s <> "") sentences -> Forall (fun c => c <> "") chunks).
Proof.
  intros sentences chunks.
  split; [apply punkt_chunks |].
  destruct (pack_groups (Protocol.chunk_size synapse) sentences)
    as (groups & Hc & Hm & Hall).
  assert (Hne : Forall (fun g : list string => g <> []) groups).
  { eapply Forall_impl; [| exact Hall]. simpl. tauto. }
  split; [| split].
  - unfold chunks, PunktMiner.miner_chunks. fold sentences.
    rewrite <- Hm, join_concat by exact Hne. now rewrite Hc.
  - exists groups. repeat split; try assumption.
    unfold chunks, PunktMiner.miner_chunks. fold sentences. now rewrite Hm.
  - apply punkt_chunks_nonempty.
Qed.

Lemma rule_based_lossless_witness :
  let synapse := Demo.request "One two. Three! Four five six?" 10 2 in
  Forall (fun s => s <> "")
         (sent_tokenize (Externals := Demo.demo_externals)
                        (Protocol.document synapse))
  /\ Forall (fun c => c <> "")
            (PunktMiner.miner_chunks (E := Demo.demo_externals) synapse).
Proof.
  assert (Hs : Forall (fun s => s <> "")
                      (sent_tokenize (Externals := Demo.demo_externals)
                         "One two. Three! Four five six?")).
  { vm_compute. repeat constructor; discriminate. }
  split.
  - exact Hs.
  - exact (proj2 (proj2 (proj2 (rule_based_lossless Demo.demo_externals
             Demo.demo_miner Demo.demo_entropy
             (Demo.request "One two. Three! Four five six?" 10 2)))) Hs).
Defined.

(** C8. On the document "Sentence one. Sentence two. Sentence three." with
    [chunk_size = 15], cut by the detector into its three sentences, the
    rule-based miner returns exactly those three sentences; on the document
    "Hi. Bye." with [chunk_size = 100], cut into "Hi." and "Bye.", it
    returns exactly ["Hi. Bye."]. *)
Theorem rule_based_scenarios
        (E : Externals) (self : Protocol.Miner) (entropy : list byte)
        (syn1 syn2 : Protocol.chunkSynapse) :
  sent_tokenize "Sentence one. Sentence two. Sentence three."
  = ["Sentence one."; "Sentence two."; "Sentence three."] ->
  sent_tokenize "Hi. Bye." = ["Hi."; "Bye."] ->
  Protocol.document syn1 = "Sentence one. Sentence two. Sentence three." ->
  Protocol.chunk_size syn1 = 15 ->
  Protocol.document syn2 = "Hi. Bye." ->
  Protocol.chunk_size syn2 = 100 ->
  Protocol.chunks (PunktMiner.miner_process self entropy syn1)
  = Py.VList [Py.VStr "Sentence one."; Py.VStr "Sentence two.";
              Py.VStr "Sentence three."]
  /\ Protocol.chunks (PunktMiner.miner_process self entropy syn2)
     = Py.VList [Py.VStr "Hi. Bye."].
Proof.
  intros Ht1 Ht2 Hd1 Hs1 Hd2 Hs2.
  rewrite !punkt_chunks. unfold PunktMiner.miner_chunks.
  rewrite Hd1, Hd2, Ht1, Ht2, Hs1, Hs2. split; vm_compute; reflexivity.
Qed.

Lemma rule_based_scenarios_witness :
  let syn1 := Demo.request "Sentence one. Sentence two. Sentence three." 15 3 in
  let syn2 := Demo.request "Hi. Bye." 100 1 in
  Protocol.chunks
    (PunktMiner.miner_process (E := Demo.demo_externals)
       Demo.demo_miner Demo.demo_entropy syn1)
  = Py.VList [Py.VStr "Sentence one."; Py.VStr "Sentence two.";
              Py.VStr "Sentence three."]
  /\ Protocol.chunks
       (PunktMiner.miner_process (E := Demo.demo_externals)
          Demo.demo_miner Demo.demo_entropy syn2)
     = Py.VList [Py.VStr "Hi. Bye."].
Proof.
  intros syn1 syn2.
  apply (rule_based_scenarios Demo.demo_externals Demo.demo_miner
           Demo.demo_entropy syn1 syn2); vm_compute; reflexivity.
Defined.

(** C9. The rule-based miner is a function of the document and of
    [chunk_size] alone: two invocations on the same document and the same
    [chunk_size] emit identical chunk sequences, whatever their
    [chunk_qty], their incoming [chunks] and signature fields, the key pair
    and the randomness of the signer. *)
Theorem rule_based_deterministic
        (E : Externals) (self1 self2 : Protocol.Miner)
        (entropy1 entropy2 : list byte)
        (syn1 syn2 : Protocol.chunkSynapse) :
  Protocol.document syn1 = Protocol.document syn2 ->
  Protocol.chunk_size syn1 = Protocol.chunk_size syn2 ->
  PunktMiner.miner_chunks syn1 = PunktMiner.miner_chunks syn2
  /\ Protocol.chunks (PunktMiner.miner_process self1 entropy1 syn1)
     = Protocol.chunks (PunktMiner.miner_process self2 entropy2 syn2).
Proof.
  intros Hd Hs.
  assert (Hc : PunktMiner.miner_chunks syn1 = PunktMiner.miner_chunks syn2).
  { unfold PunktMiner.miner_chunks. now rewrite Hd, Hs. }
  split; [exact Hc |]. now rewrite !punkt_chunks, Hc.
Qed.

Lemma rule_based_deterministic_witness :
  Protocol.chunks
    (PunktMiner.miner_process (E := Demo.demo_externals)
       Demo.demo_miner Demo.demo_entropy (Demo.request "Hi. Bye. Yes." 8 1))
  = Protocol.chunks
      (PunktMiner.miner_process (E := Demo.demo_externals)
         {| Protocol.hotkey := {| Protocol.public_key := [];
                                  Protocol.private_key := [x07%byte] |} |}
         [] (Demo.request "Hi. Bye. Yes." 8 40)).
Proof.
  apply (rule_based_deterministic Demo.demo_externals);
    vm_compute; reflexivity.
Defined.

(** C10. The nested packing loops terminate on every input: an inner pass
    that continues removes exactly one sentence from the remaining list, an
    outer pass removes at least one, and with fuel above the number of
    sentences the loops return the chunk list, which has at most one chunk
    per sentence. *)
Theorem packing_loops_terminate (chunk_size : Z) (sentences : list string) :
  (forall st,
      match PunktMiner.inner_body chunk_size st with
      | PunktMiner.Next st' =>
          S (length (PunktMiner.document st'))
          = length (PunktMiner.document st)
      | PunktMiner.Exit st' => st' = st
      end)
  /\ (forall st k,
         match PunktMiner.outer_body (length (PunktMiner.document st) + k)
                                     chunk_size st with
         | Some (PunktMiner.Next st') =>
             (length (PunktMiner.document st')
              < length (PunktMiner.document st))%nat
         | Some (PunktMiner.Exit st') =>
             st' = st /\ PunktMiner.document st = []
         | None => False
         end)
  /\ (forall k,
         PunktMiner.pack_fuel (S (length sentences) + k) chunk_size sentences
         = Some (PunktMiner.pack chunk_size sentences))
  /\ (length (PunktMiner.pack chunk_size sentences) <= length sentences)%nat.
Proof.
  split; [apply inner_body_pops |].
  split; [apply outer_body_pops |].
  split; [| apply pack_length].
  intro k. rewrite pack_eq_spec. apply pack_fuel_enough.
Qed.

(** ** The model-backed miner *)

Section ModelBacked.

Import OpenAIMiner.
Context {E : Externals}.
Variable self : Protocol.Miner.
Variable entropy : list byte.

(** One attempt: it raises before it touches the synapse, or it assigns
    the chunks and the signature. *)
Lemma body_spec (r : reply) (synapse : Protocol.chunkSynapse) :
  miner_process_body self entropy r synapse
  = match failure r with
    | Some e => (inl e, synapse)
    | None => (inr tt, accept self entropy r synapse)
    end.
Proof.
  destruct r as [| |content]; try reflexivity.
  destruct content; try reflexivity.
  unfold miner_process_body, failure, bind. simpl.
  destruct (Py.truthy _); reflexivity.
Qed.

(** The three attempts of the decorated function. *)
Lemma miner_process_spec (service : nat -> reply)
      (synapse : Protocol.chunkSynapse) :
  miner_process self entropy service synapse
  = match failure (service 0%nat) with
    | None =>
        {| out := Returned; events := [Call];
           synapse_after := accept self entropy (service 0%nat) synapse |}
    | Some _ =>
        match failure (service 1%nat) with
        | None =>
            {| out := Returned; events := [Call; Sleep 1; Call];
               synapse_after := accept self entropy (service 1%nat) synapse |}
        | Some _ =>
            match failure (service 2%nat) with
            | None =>
                {| out := Returned;
                   events := [Call; Sleep 1; Call; Sleep 2; Call];
                   synapse_after :=
                     accept self entropy (service 2%nat) synapse |}
            | Some e =>
                {| out := Raised e;
                   events := [Call; Sleep 1; Call; Sleep 2; Call];
                   synapse_after := synapse |}
            end
        end
    end.
Proof.
  unfold miner_process. simpl. rewrite body_spec.
  destruct (failure (service 0%nat)); [| reflexivity].
  rewrite body_spec. destruct (failure (service 1%nat)); [| reflexivity].
  rewrite body_spec. destruct (failure (service 2%nat)); reflexivity.
Qed.

(** A run that returns accepted the reply of one of its three calls. *)
Lemma returned_accepts (service : nat -> reply)
      (synapse : Protocol.chunkSynapse) :
  out (miner_process self entropy service synapse) = Returned ->
  exists k, (k < 3)%nat /\ failure (service k) = None
            /\ synapse_after (miner_process self entropy service synapse)
               = accept self entropy (service k) synapse.
Proof.
  rewrite miner_process_spec.
  destruct (failure (service 0%nat)) eqn:F0;
    [| intros _; exists 0%nat; repeat split; [lia | assumption]].
  destruct (failure (service 1%nat)) eqn:F1;
    [| intros _; exists 1%nat; repeat split; [lia | assumption]].
  destruct (failure (service 2%nat)) eqn:F2;
    [discriminate | intros _; exists 2%nat; repeat split; [lia | assumption]].
Qed.

Lemma raised_untouched (service : nat -> reply)
      (synapse : Protocol.chunkSynapse) (e : exn) :
  out (miner_process self entropy service synapse) = Raised e ->
  synapse_after (miner_process self entropy service synapse) = synapse.
Proof.
  rewrite miner_process_spec.
  destruct (failure (service 0%nat)); [| discriminate].
  destruct (failure (service 1%nat)); [| discriminate].
  destruct (failure (service 2%nat)); [reflexivity | discriminate].
Qed.

Lemma always_called (service : nat -> reply)
      (synapse : Protocol.chunkSynapse) :
  out (miner_process self entropy service synapse) <> NotCalled.
Proof.
  rewrite miner_process_spec.
  destruct (failure (service 0%nat)); [| discriminate].
  destruct (failure (service 1%nat)); [| discriminate].
  destruct (failure (service 2%nat)); discriminate.
Qed.

(** An accepted reply carries a truthy chunks object. *)
Lemma accepted_truthy (r : reply) :
  failure r = None -> Py.truthy (accepted_chunks r) = true.
Proof.
  destruct r as [| |content]; try discriminate.
  destruct content; try discriminate. simpl.
  destruct (Py.truthy _); [reflexivity | discriminate].
Qed.

Lemma dict_get_missing (d : list (string * Py.value)) (key : string) :
  forall default,
    (forall v, ~ In (key, v) d) -> Py.dict_get d key default = default.
Proof.
  induction d as [|[k v] d IH]; intros default Hmiss; simpl.
  - reflexivity.
  - destruct (String.eqb_spec k key) as [-> | Hne].
    + exfalso. apply (Hmiss v). now left.
    + apply IH. intros v' Hin. apply (Hmiss v'). now right.
Qed.

(** A dict without usable chunks makes the attempt raise [ValueError]. *)
Lemma no_chunks_fails (d : list (string * Py.value)) :
  (forall v, ~ In ("chunks", v) d)
  \/ Py.dict_get d "chunks" (Py.VList []) = Py.VList [] ->
  failure (Content (Py.VDict d)) = Some (ValueError value_error_message).
Proof.
  intros [Hmiss | Hempty]; simpl.
  - now rewrite dict_get_missing.
  - now rewrite Hempty.
Qed.

End ModelBacked.

Lemma hex_lowercase (bs : list byte) :
  forallb Py.is_lower_hex (list_ascii_of_string (Py.hex bs)) = true.
Proof.
  induction bs as [|b bs IH]; [reflexivity |].
  cbn [Py.hex list_ascii_of_string forallb]. rewrite IH.
  destruct b; reflexivity.
Qed.

Lemma hex_length (bs : list byte) :
  String.length (Py.hex bs) = (2 * length bs)%nat.
Proof.
  induction bs as [|b bs IH]; [reflexivity |].
  cbn [Py.hex String.length length]. rewrite IH. lia.
Qed.

(** ** Claims about the retry policy, validation and signing *)

(** C3. When every one of the three attempts of the model-backed miner
    fails, the request is attempted exactly 3 times, the sleeps between the
    attempts are 1 and then 2 time units (initial delay 1, multiplier 2;
    there is no sleep after the last attempt), and the exception of the
    third attempt reaches the caller: nothing is returned and the synapse is
    left as it was received. *)
Theorem retry_exhausted
        (E : Externals) (self : Protocol.Miner) (entropy : list byte)
        (service : nat -> OpenAIMiner.reply)
        (synapse : Protocol.chunkSynapse) :
  (forall k, (k < 3)%nat -> fails (service k) = true) ->
  let r := OpenAIMiner.miner_process self entropy service synapse in
  OpenAIMiner.calls (OpenAIMiner.events r) = 3%nat
  /\ OpenAIMiner.delays (OpenAIMiner.events r) = [1; 2]
  /\ OpenAIMiner.events r
     = [OpenAIMiner.Call; OpenAIMiner.Sleep 1; OpenAIMiner.Call;
        OpenAIMiner.Sleep 2; OpenAIMiner.Call]
  /\ (exists e, failure (service 2%nat) = Some e
                /\ OpenAIMiner.out r = OpenAIMiner.Raised e)
  /\ OpenAIMiner.synapse_after r = synapse.
Proof.
  intros Hfail r. subst r. rewrite miner_process_spec.
  pose proof (Hfail 0%nat ltac:(lia)) as H0.
  pose proof (Hfail 1%nat ltac:(lia)) as H1.
  pose proof (Hfail 2%nat ltac:(lia)) as H2.
  unfold fails in H0, H1, H2.
  destruct (failure (service 0%nat)); [| discriminate].
  destruct (failure (service 1%nat)); [| discriminate].
  destruct (failure (service 2%nat)) as [e2|]; [| discriminate].
  simpl. repeat split. now exists e2.
Qed.

Lemma retry_exhausted_witness :
  let service := fun _ : nat =>
    OpenAIMiner.Content (Py.VDict [("chunks", Py.VList [])]) in
  let r := OpenAIMiner.miner_process (E := Demo.demo_externals)
             Demo.demo_miner Demo.demo_entropy service
             (Demo.request "Hi. Bye." 100 1) in
  OpenAIMiner.calls (OpenAIMiner.events r) = 3%nat
  /\ OpenAIMiner.delays (OpenAIMiner.events r) = [1; 2].
Proof.
  intros service r.
  destruct (retry_exhausted Demo.demo_externals Demo.demo_miner
              Demo.demo_entropy service (Demo.request "Hi. Bye." 100 1))
    as (Hc & Hd & _).
  - intros k _. reflexivity.
  - split; [exact Hc | exact Hd].
Defined.

(** The sleeps of a run whose attempts all fail are not 1, 2, 4: only two
    sleeps separate three attempts. *)
Lemma retry_delays_counterexample :
  let service := fun _ : nat =>
    OpenAIMiner.Content (Py.VDict [("chunks", Py.VList [])]) in
  let r := OpenAIMiner.miner_process (E := Demo.demo_externals)
             Demo.demo_miner Demo.demo_entropy service
             (Demo.request "Hi. Bye." 100 1) in
  (forall k, fails (service k) = true)
  /\ OpenAIMiner.calls (OpenAIMiner.events r) = 3%nat
  /\ OpenAIMiner.delays (OpenAIMiner.events r) <> [1; 2; 4].
Proof.
  intros service r. split; [reflexivity |]. split; [reflexivity |].
  vm_compute. discriminate.
Qed.

(** C6. The model-backed miner accepts a reply only if its content is a
    JSON object whose ["chunks"] entry is present and truthy, which for a
    list means at least one element; the elements themselves are not
    inspected. A content whose ["chunks"] entry is missing or is the empty
    list raises [ValueError], which leads to another attempt and, when
    every reply is like that, to a failed request; it is never returned as
    a zero-chunk success. *)
Theorem reply_validation
        (E : Externals) (self : Protocol.Miner) (entropy : list byte)
        (service : nat -> OpenAIMiner.reply)
        (d : list (string * Py.value))
        (synapse : Protocol.chunkSynapse) :
  (forall r u synapse',
      OpenAIMiner.miner_process_body self entropy r synapse = (inr u, synapse')
      -> exists d',
        r = OpenAIMiner.Content (Py.VDict d')
        /\ Protocol.chunks synapse' = Py.dict_get d' "chunks" (Py.VList [])
        /\ Py.truthy (Protocol.chunks synapse') = true
        /\ Protocol.chunks synapse' <> Py.VList [])
  /\ ((forall v, ~ In ("chunks", v) d)
      \/ Py.dict_get d "chunks" (Py.VList []) = Py.VList [] ->
      let r := OpenAIMiner.Content (Py.VDict d) in
      let verr := OpenAIMiner.ValueError OpenAIMiner.value_error_message in
      OpenAIMiner.miner_process_body self entropy r synapse
      = (inl verr, synapse)
      /\ (service 0%nat = r ->
          (2 <= OpenAIMiner.calls
                  (OpenAIMiner.events
                     (OpenAIMiner.miner_process self entropy service synapse))
          )%nat)
      /\ ((forall k, service k = r) ->
          OpenAIMiner.out
            (OpenAIMiner.miner_process self entropy service synapse)
          = OpenAIMiner.Raised verr)).
Proof.
  split.
  - intros r u synapse' Hrun. rewrite body_spec in Hrun.
    destruct (failure r) eqn:F; [discriminate |].
    pose proof (accepted_truthy r F) as Ht.
    inversion Hrun; subst. clear Hrun.
    destruct r as [| |content]; try discriminate.
    destruct content as [| | | | |d']; try discriminate.
    exists d'. split; [reflexivity |]. split; [reflexivity |].
    split; [exact Ht |]. simpl in Ht |- *.
    intro Hnil. rewrite Hnil in Ht. discriminate.
  - intros Hbad r verr. pose proof (no_chunks_fails d Hbad) as F.
    fold r verr in F. split; [| split].
    + now rewrite body_spec, F.
    + intro H0. rewrite miner_process_spec, H0, F.
      destruct (failure (service 1%nat)); [| simpl; lia].
      destruct (failure (service 2%nat)); simpl; lia.
    + intro Hall. rewrite miner_process_spec, !Hall, F. reflexivity.
Qed.

Lemma reply_validation_witness :
  let r := OpenAIMiner.Content (Py.VDict [("chunks", Py.VList [])]) in
  OpenAIMiner.out
    (OpenAIMiner.miner_process (E := Demo.demo_externals)
       Demo.demo_miner Demo.demo_entropy (fun _ => r)
       (Demo.request "Hi. Bye." 100 1))
  = OpenAIMiner.Raised (OpenAIMiner.ValueError OpenAIMiner.value_error_message).
Proof.
  intro r.
  refine (proj2 (proj2 (proj2 (reply_validation Demo.demo_externals
            Demo.demo_miner Demo.demo_entropy (fun _ => r)
            [("chunks", Py.VList [])] (Demo.request "Hi. Bye." 100 1)) _)) _).
  - right. reflexivity.
  - intro k. reflexivity.
Defined.

(** A reply whose only chunk is the empty string is accepted although it
    contains no non-empty chunk. *)
Lemma reply_validation_counterexample :
  let r := OpenAIMiner.Content (Py.VDict [("chunks", Py.VList [Py.VStr ""])]) in
  let synapse := Demo.request "Hi. Bye." 100 1 in
  exists synapse',
    OpenAIMiner.miner_process_body (E := Demo.demo_externals)
      Demo.demo_miner Demo.demo_entropy r synapse = (inr tt, synapse')
    /\ Protocol.chunks synapse' = Py.VList [Py.VStr ""]
    /\ has_nonempty_chunk (Protocol.chunks synapse') = false.
Proof.
  intros r synapse. eexists. split; [reflexivity |]. split; reflexivity.
Qed.

(** C2. Every chunk of the rule-based miner has length greater than zero
    whenever the sentences of the document are non-empty; a chunks object
    returned by the model-backed miner is truthy, so a returned list has at
    least one element, and its elements are returned as the service gave
    them. *)
Theorem chunks_nonempty
        (E : Externals) (self : Protocol.Miner) (entropy : list byte)
        (service : nat -> OpenAIMiner.reply)
        (synapse : Protocol.chunkSynapse) :
  (Forall (fun s => s <> "") (sent_tokenize (Protocol.document synapse)) ->
   Protocol.chunks (PunktMiner.miner_process self entropy synapse)
   = Py.VList (map Py.VStr (PunktMiner.miner_chunks synapse))
   /\ Forall (fun c => 0 < Py.len c) (PunktMiner.miner_chunks synapse))
  /\ (let r := OpenAIMiner.miner_process self entropy service synapse in
      OpenAIMiner.out r = OpenAIMiner.Returned ->
      Py.truthy (Protocol.chunks (OpenAIMiner.synapse_after r)) = true
      /\ (forall l, Protocol.chunks (OpenAIMiner.synapse_after r) = Py.VList l
                    -> l <> [])
      /\ exists k, (k < 3)%nat
                   /\ Protocol.chunks (OpenAIMiner.synapse_after r)
                      = accepted_chunks (service k)).
Proof.
  split.
  - intro Hs. split; [apply punkt_chunks |].
    eapply Forall_impl; [| apply (punkt_chunks_nonempty synapse Hs)].
    intros c Hc. simpl in Hc.
    pose proof (len_nonneg c). destruct c; [congruence |].
    unfold Py.len. simpl. lia.
  - intros r Hret.
    destruct (returned_accepts self entropy service synapse Hret)
      as (k & Hk & F & Hacc).
    fold r in Hacc. rewrite Hacc. simpl.
    pose proof (accepted_truthy (service k) F) as Ht.
    split; [exact Ht |]. split.
    + intros l Hl. rewrite Hl in Ht. now destruct l.
    + now exists k.
Qed.

Lemma chunks_nonempty_witness :
  let synapse := Demo.request "Hi. Bye." 3 2 in
  let service := fun _ : nat =>
    OpenAIMiner.Content
      (Py.VDict [("chunks", Py.VList [Py.VStr "Hi."; Py.VStr "Bye."])]) in
  Forall (fun c => 0 < Py.len c)
         (PunktMiner.miner_chunks (E := Demo.demo_externals) synapse)
  /\ Py.truthy
       (Protocol.chunks
          (OpenAIMiner.synapse_after
             (OpenAIMiner.miner_process (E := Demo.demo_externals)
                Demo.demo_miner Demo.demo_entropy service synapse))) = true.
Proof.
  intros synapse service.
  destruct (chunks_nonempty Demo.demo_externals Demo.demo_miner
              Demo.demo_entropy service synapse) as [Hrule Hmodel].
  split.
  - apply Hrule. vm_compute. repeat constructor; discriminate.
  - apply Hmodel. reflexivity.
Defined.

(** The model-backed miner returns a chunk of length zero when the service
    sends one. *)
Lemma chunks_nonempty_counterexample :
  let service := fun _ : nat =>
    OpenAIMiner.Content
      (Py.VDict [("chunks", Py.VList [Py.VStr "Hi. Bye."; Py.VStr ""])]) in
  let r := OpenAIMiner.miner_process (E := Demo.demo_externals)
             Demo.demo_miner Demo.demo_entropy service
             (Demo.request "Hi. Bye." 100 2) in
  OpenAIMiner.out r = OpenAIMiner.Returned
  /\ Protocol.chunks (OpenAIMiner.synapse_after r)
     = Py.VList [Py.VStr "Hi. Bye."; Py.VStr ""]
  /\ ~ Forall (fun c => 0 < Py.len c) ["Hi. Bye."; ""].
Proof.
  intros service r. split; [reflexivity |]. split; [reflexivity |].
  intro H. inversion H as [|? ? _ H1]; subst.
  inversion H1 as [|? ? H2 _]; subst. vm_compute in H2. discriminate.
Qed.

(** C4. For every request that either miner processes with success, the
    [miner_signature] field of the returned synapse is the lowercase
    hexadecimal text, two digits per byte, of the signature made with the
    key pair of the process over the encoded JSON text of the object with
    the keys document, chunk_size, chunk_qty, chunks in this order, whose
    values are those of the returned synapse: the document and the two
    sizes as received, which no miner alters, and the chunks the miner
    produced. *)
Theorem signature_covers_response
        (E : Externals) (st : Neuron.strategy) (self : Protocol.Miner)
        (entropy : list byte) (service : nat -> OpenAIMiner.reply)
        (synapse : Protocol.chunkSynapse) :
  let r := Neuron.forward st self entropy service synapse in
  OpenAIMiner.out r = OpenAIMiner.Returned ->
  let synapse' := OpenAIMiner.synapse_after r in
  let payload :=
    Py.VDict [ ("document", Py.VStr (Protocol.document synapse'));
               ("chunk_size", Py.VInt (Protocol.chunk_size synapse'));
               ("chunk_qty", Py.VInt (Protocol.chunk_qty synapse'));
               ("chunks", Protocol.chunks synapse') ] in
  let raw :=
    sign entropy
         (Protocol.public_key (Protocol.hotkey self),
          Protocol.private_key (Protocol.hotkey self))
         (Py.encode (json_dumps payload)) in
  Protocol.miner_signature synapse' = Some (Py.hex raw)
  /\ forallb Py.is_lower_hex (list_ascii_of_string (Py.hex raw)) = true
  /\ String.length (Py.hex raw) = (2 * length raw)%nat
  /\ Protocol.document synapse' = Protocol.document synapse
  /\ Protocol.chunk_size synapse' = Protocol.chunk_size synapse
  /\ Protocol.chunk_qty synapse' = Protocol.chunk_qty synapse
  /\ match st with
     | Neuron.Punkt =>
         Protocol.chunks synapse'
         = Py.VList (map Py.VStr (PunktMiner.miner_chunks synapse))
     | Neuron.OpenAI =>
         exists k, (k < 3)%nat /\ failure (service k) = None
                   /\ Protocol.chunks synapse' = accepted_chunks (service k)
     end.
Proof.
  intros r Hret synapse' payload raw.
  split; [| split; [apply hex_lowercase | split; [apply hex_length |]]].
  - destruct st.
    + reflexivity.
    + destruct (returned_accepts self entropy service synapse Hret)
        as (k & _ & _ & Hacc).
      subst raw payload synapse' r. simpl in Hacc |- *.
      rewrite Hacc. reflexivity.
  - destruct st.
    + repeat split.
    + destruct (returned_accepts self entropy service synapse Hret)
        as (k & Hk & F & Hacc).
      subst synapse' r. simpl in Hacc |- *. rewrite Hacc.
      repeat split. now exists k.
Qed.

Lemma signature_covers_response_witness :
  let r := Neuron.forward (E := Demo.demo_externals) Neuron.Punkt
             Demo.demo_miner Demo.demo_entropy (fun _ => OpenAIMiner.CallFails)
             (Demo.request "Hi. Bye." 100 1) in
  OpenAIMiner.out r = OpenAIMiner.Returned
  /\ Protocol.miner_signature (OpenAIMiner.synapse_after r)
     = Some (Py.hex
               (Demo.demo_sign Demo.demo_entropy
                  ([x01; x02]%byte, [x0a; x0b]%byte)
                  (Py.encode
                     (Demo.demo_json_dumps
                        (Py.VDict [ ("document", Py.VStr "Hi. Bye.");
                                    ("chunk_size", Py.VInt 100);
                                    ("chunk_qty", Py.VInt 1);
                                    ("chunks", Py.VList [Py.VStr "Hi. Bye."])
                        ]))))).
Proof.
  intro r. split; [reflexivity |].
  exact (proj1 (signature_covers_response Demo.demo_externals Neuron.Punkt
                  Demo.demo_miner Demo.demo_entropy
                  (fun _ => OpenAIMiner.CallFails)
                  (Demo.request "Hi. Bye." 100 1) eq_refl)).
Defined.

(** C5. The model-backed miner never signs or returns an empty chunks list:
    a reply without chunks makes the attempt raise, a run that returns
    carries a non-empty chunks object together with its signature, and a
    run that ends with an exception leaves the synapse as it was received,
    with no chunks assigned and no signature made. The rule-based miner
    does not treat zero chunks as an error: when the detector returns no
    sentence for the document, the miner assigns the empty chunks list,
    signs it and returns it; when the detector returns a sentence, the
    chunks list is not empty. *)
Theorem empty_result_handling
        (E : Externals) (self : Protocol.Miner) (entropy : list byte)
        (service : nat -> OpenAIMiner.reply)
        (synapse : Protocol.chunkSynapse) :
  let r := OpenAIMiner.miner_process self entropy service synapse in
  let p := PunktMiner.miner_process self entropy synapse in
  (OpenAIMiner.out r = OpenAIMiner.Returned ->
   Protocol.chunks (OpenAIMiner.synapse_after r) <> Py.VList []
   /\ Py.truthy (Protocol.chunks (OpenAIMiner.synapse_after r)) = true
   /\ Protocol.miner_signature (OpenAIMiner.synapse_after r)
      = Some (Response.signature self entropy (OpenAIMiner.synapse_after r)))
  /\ (forall e, OpenAIMiner.out r = OpenAIMiner.Raised e ->
                OpenAIMiner.synapse_after r = synapse)
  /\ OpenAIMiner.out r <> OpenAIMiner.NotCalled
  /\ (sent_tokenize (Protocol.document synapse) = [] ->
      Protocol.chunks p = Py.VList []
      /\ Protocol.miner_signature p
         = Some (Response.signature self entropy p))
  /\ (sent_tokenize (Protocol.document synapse) <> [] ->
      Protocol.chunks p <> Py.VList []).
Proof.
  assert (Hempty : Protocol.chunks
                   (PunktMiner.miner_process self entropy synapse)
                 = Py.VList []
                 <-> sent_tokenize (Protocol.document synapse) = []).
  { rewrite punkt_chunks. unfold PunktMiner.miner_chunks.
    rewrite <- pack_nil_iff with (chunk_size := Protocol.chunk_size synapse).
    split.
    - intro Hl. injection Hl as Hm. now apply map_eq_nil in Hm.
    - intro Hp. now rewrite Hp. }
  intros r p. split; [| split; [| split; [| split]]].
  - intro Hret.
    destruct (returned_accepts self entropy service synapse Hret)
      as (k & _ & F & Hacc).
    fold r in Hacc. rewrite Hacc.
    pose proof (accepted_truthy (service k) F) as Ht.
    split; [| split; [exact Ht | reflexivity]].
    simpl. intro Hnil. rewrite Hnil in Ht. discriminate.
  - intros e He. exact (raised_untouched self entropy service synapse e He).
  - apply always_called.
  - intro Hs. split; [now apply Hempty | reflexivity].
  - intros Hs Hc. apply Hs. now apply Hempty.
Qed.

Lemma empty_result_handling_witness :
  let service := fun k : nat =>
    match k with
    | O => OpenAIMiner.Content (Py.VDict [("chunks", Py.VList [])])
    | _ => OpenAIMiner.Content (Py.VDict [("chunks", Py.VList [Py.VStr "Hi."])])
    end in
  let r := OpenAIMiner.miner_process (E := Demo.demo_externals)
             Demo.demo_miner Demo.demo_entropy service
             (Demo.request "Hi." 100 1) in
  OpenAIMiner.out r = OpenAIMiner.Returned
  /\ Protocol.chunks (OpenAIMiner.synapse_after r) <> Py.VList [].
Proof.
  intros service r. split; [reflexivity |].
  exact (proj1 (proj1 (empty_result_handling Demo.demo_externals
                         Demo.demo_miner Demo.demo_entropy service
                         (Demo.request "Hi." 100 1)) eq_refl)).
Defined.

(** On a document without sentences the rule-based miner returns the empty
    chunks list as a success and signs it. *)
Lemma empty_result_counterexample :
  let r := Neuron.forward (E := Demo.demo_externals) Neuron.Punkt
             Demo.demo_miner Demo.demo_entropy (fun _ => OpenAIMiner.CallFails)
             (Demo.request "" 100 1) in
  sent_tokenize (Externals := Demo.demo_externals) "" = []
  /\ OpenAIMiner.out r = OpenAIMiner.Returned
  /\ Protocol.chunks (OpenAIMiner.synapse_after r) = Py.VList []
  /\ Demo.demo_json_dumps (Response.response_data (OpenAIMiner.synapse_after r))
     = Demo.demo_json_dumps
         (Py.VDict [ ("document", Py.VStr ""); ("chunk_size", Py.VInt 100);
                     ("chunk_qty", Py.VInt 1); ("chunks", Py.VList []) ])
  /\ Protocol.miner_signature (OpenAIMiner.synapse_after r) <> None.
Proof.
  intro r. repeat split. vm_compute. discriminate.
Qed.

(** * Further properties of the miners *)

(** ** Greedy packing *)

Section Packing.

Import PackSpec.
Variable chunk_size : Z.

Lemma len_space_append (a b : string) :
  Py.len ((a ++ " ") ++ b) = Py.len a + 1 + Py.len b.
Proof. rewrite !len_append. reflexivity. Qed.

Lemma pack_from_cons (cur s : string) (rest : list string) :
  pack_from chunk_size cur (s :: rest)
  = if Py.len ((cur ++ " ") ++ s) >? chunk_size
    then cur :: pack_from chunk_size s rest
    else pack_from chunk_size (cur ++ " " ++ s) rest.
Proof. reflexivity. Qed.

(** The groups of [pack_from], with the greedy condition between
    neighbours; the first group extends the group the loop started with. *)
Lemma pack_from_maximal (doc : list string) :
  forall g,
    g <> [] ->
    exists ext tl,
      concat ((g ++ ext)%list :: tl) = (g ++ doc)%list
      /\ map (Py.join " ") ((g ++ ext)%list :: tl)
         = pack_from chunk_size (Py.join " " g) doc
      /\ Forall (fun grp => grp <> []) tl
      /\ Greedy.maximal chunk_size ((g ++ ext)%list :: tl).
Proof.
  induction doc as [|s rest IH]; intros g Hg.
  - exists [], []. rewrite !app_nil_r. simpl. rewrite app_nil_r.
    repeat split. constructor.
  - simpl pack_from.
    destruct (Z.gtb_spec (Py.len ((Py.join " " g ++ " ") ++ s)) chunk_size)
      as [Hbig | Hfits].
    + destruct (IH [s]) as (ext & tl & Hc & Hm & Hne & Hmax);
        [discriminate |].
      exists [], (([s] ++ ext)%list :: tl). rewrite !app_nil_r.
      split; [| split; [| split]].
      * change (concat (g :: ([s] ++ ext)%list :: tl))
          with (g ++ concat (([s] ++ ext)%list :: tl))%list.
        now rewrite Hc.
      * change (map (Py.join " ") (g :: ([s] ++ ext)%list :: tl))
          with (Py.join " " g
                  :: map (Py.join " ") (([s] ++ ext)%list :: tl)).
        now rewrite Hm.
      * constructor; [discriminate | exact Hne].
      * split; [exact Hbig | exact Hmax].
    + destruct (IH (g ++ [s])%list) as (ext & tl & Hc & Hm & Hne & Hmax);
        [now destruct g |].
      exists (s :: ext), tl.
      replace (g ++ s :: ext)%list with ((g ++ [s]) ++ ext)%list
        by (now rewrite <- app_assoc).
      split; [| split; [| split]]; try assumption.
      * rewrite Hc. now rewrite <- app_assoc.
      * rewrite Hm, join_snoc by exact Hg. reflexivity.
Qed.

Lemma pack_maximal (sentences : list string) :
  exists groups,
    concat groups = sentences
    /\ PunktMiner.pack chunk_size sentences = map (Py.join " ") groups
    /\ Forall (fun grp => grp <> []) groups
    /\ Greedy.maximal chunk_size groups.
Proof.
  rewrite pack_eq_spec. destruct sentences as [|s rest].
  - exists []. simpl. repeat split. constructor.
  - destruct (pack_from_maximal rest [s]) as (ext & tl & Hc & Hm & Hne & Hmax);
      [discriminate |].
    exists (([s] ++ ext)%list :: tl).
    split; [exact Hc |]. split; [symmetry; exact Hm |].
    split; [constructor; [discriminate | exact Hne] | exact Hmax].
Qed.

(** The first chunk is at least as long as the chunk the loop started
    with. *)
Lemma pack_from_head (doc : list string) :
  forall cur,
    exists h tl,
      pack_from chunk_size cur doc = h :: tl /\ Py.len cur <= Py.len h.
Proof.
  induction doc as [|s rest IH]; intro cur; simpl.
  - exists cur, []. split; [reflexivity | lia].
  - destruct (_ >? _).
    + exists cur, (pack_from chunk_size s rest). split; [reflexivity | lia].
    + destruct (IH (cur ++ " " ++ s)) as (h & tl & Hp & Hl).
      exists h, tl. split; [exact Hp |].
      rewrite !len_append in Hl. pose proof (len_nonneg s).
      change (Py.len " ") with 1 in Hl. lia.
Qed.

(** Packing the chunks again changes nothing. *)
Lemma pack_from_idempotent (doc : list string) :
  forall cur,
    pack_spec chunk_size (pack_from chunk_size cur doc)
    = pack_from chunk_size cur doc.
Proof.
  induction doc as [|s rest IH]; intro cur.
  - reflexivity.
  - simpl pack_from.
    destruct (Z.gtb_spec (Py.len ((cur ++ " ") ++ s)) chunk_size)
      as [Hbig | Hfits].
    + specialize (IH s).
      destruct (pack_from_head rest s) as (h & tl & Hp & Hl).
      rewrite Hp in IH |- *. simpl in IH |- *.
      destruct (Z.gtb_spec (Py.len ((cur ++ " ") ++ h)) chunk_size)
        as [_ | Hno].
      * now rewrite IH.
      * rewrite len_space_append in Hbig, Hno. lia.
    + apply IH.
Qed.

(** Sentences that each reach the size are never joined. *)
Lemma pack_from_identity (doc : list string) :
  forall cur,
    chunk_size <= Py.len cur ->
    Forall (fun s => chunk_size <= Py.len s) doc ->
    pack_from chunk_size cur doc = cur :: doc.
Proof.
  induction doc as [|s rest IH]; intros cur Hcur Hdoc; simpl.
  - reflexivity.
  - inversion Hdoc as [|? ? Hs Hrest]; subst.
    destruct (Z.gtb_spec (Py.len ((cur ++ " ") ++ s)) chunk_size)
      as [_ | Hno].
    + now rewrite IH.
    + rewrite len_space_append in Hno. pose proof (len_nonneg s). lia.
Qed.

Lemma join_cons2 (x y : string) (l : list string) :
  Py.join " " ((x ++ " " ++ y) :: l) = Py.join " " (x :: y :: l).
Proof.
  destruct l as [|z l].
  - reflexivity.
  - rewrite join_cons by discriminate.
    rewrite (join_cons " " x (y :: z :: l)) by discriminate.
    rewrite (join_cons " " y (z :: l)) by discriminate.
    now rewrite !append_assoc.
Qed.

Lemma join_head_len (x : string) (l : list string) :
  Py.len x <= Py.len (Py.join " " (x :: l)).
Proof.
  destruct l as [|y l].
  - unfold Py.join. simpl String.concat. lia.
  - rewrite join_cons by discriminate. rewrite len_append.
    pose proof (len_nonneg (" " ++ Py.join " " (y :: l))). lia.
Qed.

(** Sentences whose join fits the size form one chunk. *)
Lemma pack_from_single (doc : list string) :
  forall cur,
    Py.len (Py.join " " (cur :: doc)) <= chunk_size ->
    pack_from chunk_size cur doc = [Py.join " " (cur :: doc)].
Proof.
  induction doc as [|s rest IH]; intros cur Hfit.
  - reflexivity.
  - simpl pack_from.
    destruct (Z.gtb_spec (Py.len ((cur ++ " ") ++ s)) chunk_size)
      as [Hbig | _].
    + exfalso. rewrite <- join_cons2 in Hfit.
      pose proof (join_head_len (cur ++ " " ++ s) rest) as Hh.
      rewrite append_assoc in Hbig. lia.
    + rewrite <- (join_cons2 cur s rest). apply IH.
      now rewrite join_cons2.
Qed.

(** Characters are neither lost nor added, but for one space less per
    join. *)
Lemma pack_from_conserves (doc : list string) :
  forall cur,
    (list_sum (map String.length (pack_from chunk_size cur doc))
     + length (pack_from chunk_size cur doc)
     = list_sum (map String.length (cur :: doc)) + length (cur :: doc))%nat.
Proof.
  induction doc as [|s rest IH]; intro cur.
  - reflexivity.
  - rewrite pack_from_cons. destruct (_ >? _).
    + specialize (IH s). unfold list_sum in IH |- *.
      cbn [map fold_right length] in IH |- *. lia.
    + specialize (IH (cur ++ " " ++ s)). unfold list_sum in IH |- *.
      cbn [map fold_right length] in IH |- *.
      rewrite !length_append in IH.
      change (String.length " ") with 1%nat in IH. lia.
Qed.

End Packing.

(** ** The number of chunks and the size *)

Section Counting.

Import PackSpec.

(** With the same sentences to come, starting from another chunk costs at
    most one chunk more, and starting from a shorter chunk costs none. *)
Lemma pack_from_count (chunk_size : Z) (doc : list string) :
  (forall c c',
      (length (pack_from chunk_size c doc)
       <= Datatypes.S (length (pack_from chunk_size c' doc)))%nat)
  /\ (forall c1 c2,
         Py.len c1 <= Py.len c2 ->
         (length (pack_from chunk_size c1 doc)
          <= length (pack_from chunk_size c2 doc))%nat).
Proof.
  induction doc as [|t rest [IHa IHb]]; split.
  - intros c c'. simpl. lia.
  - intros c1 c2 _. simpl. lia.
  - intros c c'. rewrite !pack_from_cons.
    destruct (Py.len ((c ++ " ") ++ t) >? chunk_size);
      destruct (Py.len ((c' ++ " ") ++ t) >? chunk_size);
      cbn [length].
    + lia.
    + assert (Ht : Py.len t <= Py.len (c' ++ " " ++ t)).
      { rewrite !len_append. pose proof (len_nonneg c').
        change (Py.len " ") with 1. lia. }
      specialize (IHb t (c' ++ " " ++ t) Ht). lia.
    + specialize (IHa (c ++ " " ++ t) t). lia.
    + apply IHa.
  - intros c1 c2 Hle. rewrite !pack_from_cons.
    destruct (Z.gtb_spec (Py.len ((c1 ++ " ") ++ t)) chunk_size) as [H1 | H1];
      destruct (Z.gtb_spec (Py.len ((c2 ++ " ") ++ t)) chunk_size)
        as [H2 | H2]; cbn [length].
    + lia.
    + rewrite len_space_append in H1, H2. lia.
    + specialize (IHa (c1 ++ " " ++ t) t). lia.
    + apply IHb. rewrite !len_append. lia.
Qed.

(** A larger size and a shorter starting chunk never give more chunks. *)
Lemma pack_from_monotone (size size' : Z) (doc : list string) :
  size <= size' ->
  forall c c',
    Py.len c' <= Py.len c ->
    (length (pack_from size' c' doc) <= length (pack_from size c doc))%nat.
Proof.
  intro Hs. induction doc as [|t rest IH]; intros c c' Hle.
  - simpl. lia.
  - rewrite !pack_from_cons.
    destruct (Z.gtb_spec (Py.len ((c ++ " ") ++ t)) size) as [H1 | H1];
      destruct (Z.gtb_spec (Py.len ((c' ++ " ") ++ t)) size') as [H2 | H2];
      cbn [length].
    + specialize (IH t t ltac:(lia)). lia.
    + pose proof (proj1 (pack_from_count size' rest) (c' ++ " " ++ t) t).
      specialize (IH t t ltac:(lia)). lia.
    + rewrite len_space_append in H1, H2. lia.
    + apply IH. rewrite !len_append. lia.
Qed.

End Counting.

(** ** Further properties of the rule-based miner *)

(** X1. The packing is greedy: the chunks are the joins of consecutive
    non-empty groups of the sentences, and every group but the last is
    maximal, that is, joined with the first sentence of the next group it
    would exceed [chunk_size]. *)
Theorem rule_based_greedy
        (E : Externals) (synapse : Protocol.chunkSynapse) :
  exists groups : list (list string),
    concat groups = sent_tokenize (Protocol.document synapse)
    /\ PunktMiner.miner_chunks synapse = map (Py.join " ") groups
    /\ Forall (fun g => g <> []) groups
    /\ Greedy.maximal (Protocol.chunk_size synapse) groups.
Proof.
  unfold PunktMiner.miner_chunks.
  destruct (pack_maximal (Protocol.chunk_size synapse)
              (sent_tokenize (Protocol.document synapse)))
    as (groups & Hc & Hm & Hne & Hmax).
  exists groups. repeat split; assumption.
Qed.

(** X2. The rule-based miner returns the whole document as one chunk, the
    single-space join of its sentences, exactly when there is a sentence
    and either the join fits [chunk_size] or the document is one
    sentence. *)
Theorem rule_based_single_chunk
        (E : Externals) (synapse : Protocol.chunkSynapse) :
  let sentences := sent_tokenize (Protocol.document synapse) in
  PunktMiner.miner_chunks synapse = [Py.join " " sentences]
  <-> sentences <> []
      /\ (Py.len (Py.join " " sentences) <= Protocol.chunk_size synapse
          \/ exists s, sentences = [s]).
Proof.
  intro sentences. unfold PunktMiner.miner_chunks. fold sentences.
  split.
  - intro Hone.
    destruct (pack_groups (Protocol.chunk_size synapse) sentences)
      as (groups & Hc & Hm & Hall).
    rewrite Hone in Hm.
    destruct groups as [|g [|g' groups]]; try discriminate.
    simpl in Hc. rewrite app_nil_r in Hc. subst g.
    inversion Hall as [|? ? [Hne Hfit] _]; subst.
    split; [exact Hne | exact Hfit].
  - intros [Hne [Hfit | [s Hs]]].
    + rewrite pack_eq_spec. destruct sentences as [|s rest]; [congruence |].
      apply pack_from_single. exact Hfit.
    + rewrite Hs. rewrite pack_eq_spec. reflexivity.
Qed.

(** X3. When [chunk_size] is zero or negative, or more generally when
    every sentence is at least [chunk_size] long, no two sentences are
    joined: the chunks are the sentences themselves. *)
Theorem rule_based_no_join
        (E : Externals) (synapse : Protocol.chunkSynapse) :
  let sentences := sent_tokenize (Protocol.document synapse) in
  Protocol.chunk_size synapse <= 0
  \/ Forall (fun s => Protocol.chunk_size synapse <= Py.len s) sentences ->
  PunktMiner.miner_chunks synapse = sentences.
Proof.
  intros sentences Hsmall.
  assert (Hall : Forall (fun s => Protocol.chunk_size synapse <= Py.len s)
                        sentences).
  { destruct Hsmall as [Hneg | Hall]; [| exact Hall].
    apply Forall_forall. intros s _. pose proof (len_nonneg s). lia. }
  unfold PunktMiner.miner_chunks. fold sentences. rewrite pack_eq_spec.
  destruct sentences as [|s rest]; [reflexivity |].
  inversion Hall; subst. now apply pack_from_identity.
Qed.

Lemma rule_based_no_join_witness :
  PunktMiner.miner_chunks (E := Demo.demo_externals)
    (Demo.request "Hi. Bye. Yes." 0 1)
  = ["Hi."; "Bye."; "Yes."].
Proof.
  apply (rule_based_no_join Demo.demo_externals
           (Demo.request "Hi. Bye. Yes." 0 1)).
  left. simpl. lia.
Defined.

(** X4. Packing is idempotent: packing the chunks of the rule-based miner
    again, as if they were sentences, with the same [chunk_size] returns
    the same chunks. *)
Theorem rule_based_repack
        (E : Externals) (synapse : Protocol.chunkSynapse) :
  PunktMiner.pack (Protocol.chunk_size synapse)
                  (PunktMiner.miner_chunks synapse)
  = PunktMiner.miner_chunks synapse.
Proof.
  unfold PunktMiner.miner_chunks. rewrite !pack_eq_spec.
  destruct (sent_tokenize (Protocol.document synapse)) as [|s rest].
  - reflexivity.
  - apply pack_from_idempotent.
Qed.

(** X5. A larger [chunk_size] never gives more chunks: for two requests
    with the same document, the one with the larger [chunk_size] gets at
    most as many chunks as the other. *)
Theorem rule_based_monotone
        (E : Externals) (syn1 syn2 : Protocol.chunkSynapse) :
  Protocol.document syn1 = Protocol.document syn2 ->
  Protocol.chunk_size syn1 <= Protocol.chunk_size syn2 ->
  (length (PunktMiner.miner_chunks syn2)
   <= length (PunktMiner.miner_chunks syn1))%nat.
Proof.
  intros Hd Hs. unfold PunktMiner.miner_chunks. rewrite Hd, !pack_eq_spec.
  destruct (sent_tokenize (Protocol.document syn2)) as [|s rest].
  - simpl. lia.
  - apply pack_from_monotone; [exact Hs | lia].
Qed.

Lemma rule_based_monotone_witness :
  (length (PunktMiner.miner_chunks (E := Demo.demo_externals)
             (Demo.request "Hi. Bye. Yes. No." 8 1))
   <= length (PunktMiner.miner_chunks (E := Demo.demo_externals)
                (Demo.request "Hi. Bye. Yes. No." 4 1)))%nat.
Proof.
  apply (rule_based_monotone Demo.demo_externals
           (Demo.request "Hi. Bye. Yes. No." 4 1)
           (Demo.request "Hi. Bye. Yes. No." 8 1)).
  - reflexivity.
  - simpl. lia.
Defined.

(** X6. No character is lost or added but the joining spaces: the lengths
    of the chunks plus the number of chunks equal the lengths of the
    sentences plus the number of sentences. *)
Theorem rule_based_conservation
        (E : Externals) (synapse : Protocol.chunkSynapse) :
  let sentences := sent_tokenize (Protocol.document synapse) in
  let chunks := PunktMiner.miner_chunks synapse in
  (list_sum (map String.length chunks) + length chunks
   = list_sum (map String.length sentences) + length sentences)%nat.
Proof.
  intros sentences chunks. unfold chunks, PunktMiner.miner_chunks.
  fold sentences. rewrite pack_eq_spec.
  destruct sentences as [|s rest]; [reflexivity |].
  apply pack_from_conserves.
Qed.

(** ** Further properties of the model-backed miner *)

(** X7. The model-backed miner returns the chunks of the service as they
    are: whenever the content is an object whose ["chunks"] entry is
    truthy, the attempt succeeds and stores that entry unchanged, whatever
    the [chunk_size] and [chunk_qty] of the request and whatever else the
    object holds; the document and the two sizes are left as received. *)
Theorem model_backed_pass_through
        (E : Externals) (self : Protocol.Miner) (entropy : list byte)
        (d : list (string * Py.value)) (v : Py.value)
        (synapse : Protocol.chunkSynapse) :
  Py.dict_get d "chunks" (Py.VList []) = v ->
  Py.truthy v = true ->
  exists synapse',
    OpenAIMiner.miner_process_body self entropy
      (OpenAIMiner.Content (Py.VDict d)) synapse = (inr tt, synapse')
    /\ Protocol.chunks synapse' = v
    /\ Protocol.document synapse' = Protocol.document synapse
    /\ Protocol.chunk_size synapse' = Protocol.chunk_size synapse
    /\ Protocol.chunk_qty synapse' = Protocol.chunk_qty synapse.
Proof.
  intros Hget Ht. rewrite body_spec. simpl failure. rewrite Hget, Ht.
  eexists. split; [reflexivity |]. simpl. rewrite Hget. repeat split.
Qed.

Lemma model_backed_pass_through_witness :
  exists synapse',
    OpenAIMiner.miner_process_body (E := Demo.demo_externals)
      Demo.demo_miner Demo.demo_entropy
      (OpenAIMiner.Content
         (Py.VDict [("note", Py.VInt 7);
                    ("chunks", Py.VList [Py.VStr "far too long a chunk";
                                         Py.VStr "b"; Py.VStr "c"])]))
      (Demo.request "far too long a chunk b c" 5 2) = (inr tt, synapse')
    /\ Protocol.chunks synapse'
       = Py.VList [Py.VStr "far too long a chunk"; Py.VStr "b"; Py.VStr "c"].
Proof.
  destruct (model_backed_pass_through Demo.demo_externals Demo.demo_miner
              Demo.demo_entropy
              [("note", Py.VInt 7);
               ("chunks", Py.VList [Py.VStr "far too long a chunk";
                                    Py.VStr "b"; Py.VStr "c"])]
              (Py.VList [Py.VStr "far too long a chunk";
                         Py.VStr "b"; Py.VStr "c"])
              (Demo.request "far too long a chunk b c" 5 2))
    as (synapse' & Hrun & Hchunks & _).
  - reflexivity.
  - reflexivity.
  - exists synapse'. split; [exact Hrun | exact Hchunks].
Defined.

(** X8. The first accepted reply decides: when the replies to the calls
    before the [k]-th fail and the [k]-th is accepted ([k] below 3), the
    run returns after [k + 1] calls with the sleeps 1, 2 cut to the first
    [k], and the synapse is the one an attempt on the [k]-th reply alone
    gives; failed attempts leave no trace and later replies are not asked
    for. *)
Theorem retry_first_success
        (E : Externals) (self : Protocol.Miner) (entropy : list byte)
        (service : nat -> OpenAIMiner.reply)
        (synapse : Protocol.chunkSynapse) (k : nat) :
  (k < 3)%nat ->
  (forall j, (j < k)%nat -> fails (service j) = true) ->
  fails (service k) = false ->
  let r := OpenAIMiner.miner_process self entropy service synapse in
  OpenAIMiner.out r = OpenAIMiner.Returned
  /\ OpenAIMiner.calls (OpenAIMiner.events r) = Datatypes.S k
  /\ OpenAIMiner.delays (OpenAIMiner.events r) = firstn k [1; 2]
  /\ OpenAIMiner.miner_process_body self entropy (service k) synapse
     = (inr tt, OpenAIMiner.synapse_after r).
Proof.
  intros Hk Hbefore Hok r. subst r.
  rewrite miner_process_spec, body_spec.
  unfold fails in Hok.
  destruct k as [|[|[|k]]]; [| | | lia].
  - destruct (failure (service 0%nat)); [discriminate |]. now repeat split.
  - pose proof (Hbefore 0%nat ltac:(lia)) as H0. unfold fails in H0.
    destruct (failure (service 0%nat)); [| discriminate].
    destruct (failure (service 1%nat)); [discriminate |]. now repeat split.
  - pose proof (Hbefore 0%nat ltac:(lia)) as H0.
    pose proof (Hbefore 1%nat ltac:(lia)) as H1. unfold fails in H0, H1.
    destruct (failure (service 0%nat)); [| discriminate].
    destruct (failure (service 1%nat)); [| discriminate].
    destruct (failure (service 2%nat)); [discriminate |]. now repeat split.
Qed.

Lemma retry_first_success_witness :
  let service := fun j : nat =>
    match j with
    | O => OpenAIMiner.CallFails
    | Datatypes.S O => OpenAIMiner.Content (Py.VList [Py.VStr "Hi."])
    | _ => OpenAIMiner.Content (Py.VDict [("chunks", Py.VList [Py.VStr "Hi."])])
    end in
  let r := OpenAIMiner.miner_process (E := Demo.demo_externals)
             Demo.demo_miner Demo.demo_entropy service
             (Demo.request "Hi." 100 1) in
  OpenAIMiner.calls (OpenAIMiner.events r) = 3%nat
  /\ OpenAIMiner.delays (OpenAIMiner.events r) = [1; 2].
Proof.
  intros service r.
  destruct (retry_first_success Demo.demo_externals Demo.demo_miner
              Demo.demo_entropy service (Demo.request "Hi." 100 1) 2)
    as (_ & Hc & Hd & _).
  - lia.
  - intros j Hj. destruct j as [|[|j]]; [reflexivity | reflexivity | lia].
  - reflexivity.
  - split; [exact Hc | exact Hd].
Defined.

(** X9. Whatever the service replies, a request makes between one and
    three calls, sleeps once between two calls and never after the last,
    for 1 and then 2 time units, so for at most 3 time units in all. *)
Theorem retry_bounds
        (E : Externals) (self : Protocol.Miner) (entropy : list byte)
        (service : nat -> OpenAIMiner.reply)
        (synapse : Protocol.chunkSynapse) :
  let tr := OpenAIMiner.events
              (OpenAIMiner.miner_process self entropy service synapse) in
  (1 <= OpenAIMiner.calls tr <= 3)%nat
  /\ OpenAIMiner.delays tr = firstn (OpenAIMiner.calls tr - 1) [1; 2]
  /\ fold_right Z.add 0 (OpenAIMiner.delays tr) <= 3
  /\ last tr OpenAIMiner.Call = OpenAIMiner.Call.
Proof.
  intro tr. subst tr. rewrite miner_process_spec.
  destruct (failure (service 0%nat)); [| simpl; repeat split; lia].
  destruct (failure (service 1%nat)); [| simpl; repeat split; lia].
  destruct (failure (service 2%nat)); simpl; repeat split; lia.
Qed.

(** ** Admission control *)

Section AdmissionFacts.

Variable number : Type.
Variable lt : number -> number -> bool.

(** [index] finds nothing exactly when the value is absent. *)
Lemma index_from_none (l : list string) (x : string) :
  forall i, Admission.index_from i l x = None <-> ~ In x l.
Proof.
  induction l as [|y l IH]; intro i; simpl.
  - tauto.
  - destruct (String.eqb_spec y x) as [-> | Hne].
    + split; [discriminate | intro H; exfalso; apply H; now left].
    + rewrite IH. split.
      * intros H [Hy | Hin]; [congruence | tauto].
      * tauto.
Qed.

(** [index] returns the first position of the value. *)
Lemma index_from_some (l : list string) (x : string) :
  forall i n,
    Admission.index_from i l x = Some n
    <-> exists pre post,
        l = (pre ++ x :: post)%list /\ ~ In x pre
        /\ n = (i + length pre)%nat.
Proof.
  induction l as [|y l IH]; intros i n; simpl.
  - split; [discriminate |]. intros (pre & post & Hl & _).
    now destruct pre.
  - destruct (String.eqb_spec y x) as [-> | Hne].
    + split.
      * intro H. injection H as <-. exists [], l. simpl.
        repeat split; [tauto | lia].
      * intros (pre & post & Hl & Hpre & Hn). destruct pre as [|p pre].
        -- simpl in Hn. f_equal. lia.
        -- injection Hl as Hp _. exfalso. apply Hpre. now left.
    + rewrite IH. split.
      * intros (pre & post & Hl & Hpre & Hn). exists (y :: pre), post.
        simpl. rewrite Hl. repeat split; [| lia].
        intros [Hy | Hin]; [congruence | tauto].
      * intros (pre & post & Hl & Hpre & Hn). destruct pre as [|p pre].
        -- injection Hl as Hy _. congruence.
        -- injection Hl as Hp Hl. exists pre, post. simpl in Hn.
           repeat split; [exact Hl | | lia].
           intro Hin. apply Hpre. now right.
Qed.

Lemma hotkey_in_spec (metagraph : Admission.Metagraph number) (h : string) :
  Admission.hotkey_in metagraph (Some h) = true
  <-> In h (Admission.hotkeys metagraph).
Proof.
  simpl. rewrite existsb_exists. split.
  - intros (y & Hin & Hy). apply String.eqb_eq in Hy. now subst.
  - intro Hin. exists h. split; [exact Hin | apply String.eqb_refl].
Qed.

(** What [blacklist] does once the hotkey was found at [uid]. *)
Lemma blacklist_found (config : Admission.BlacklistConfig number)
      (metagraph : Admission.Metagraph number) (h : string) (uid : nat) :
  Admission.index_from 0 (Admission.hotkeys metagraph) h = Some uid ->
  Admission.blacklist lt config metagraph (Some h)
  = if String.eqb h "" then
      if Admission.allow_non_registered config
      then inr (false, "Allowing un-registered hotkey")
      else inr (true, "Unrecognized hotkey")
    else
      match nth_error (Admission.validator_permit metagraph) uid with
      | None => inl Admission.IndexError
      | Some permit =>
          if negb permit then
            if Admission.force_validator_permit config
            then inr (true, "Non-validator hotkey")
            else inr (false, "Validator permit not required")
          else
            match nth_error (Admission.S metagraph) uid with
            | None => inl Admission.IndexError
            | Some stake =>
                if lt stake (Admission.minimum_stake config)
                then inr (true, "Insufficient stake")
                else inr (false, "Hotkey recognized!")
            end
      end.
Proof.
  intro Hidx. unfold Admission.blacklist, Admission.hotkeys_index.
  rewrite Hidx.
  assert (Hin : Admission.hotkey_in metagraph (Some h) = true).
  { apply hotkey_in_spec. apply index_from_some in Hidx.
    destruct Hidx as (pre & post & Hl & _). rewrite Hl.
    apply in_or_app. right. now left. }
  rewrite Hin. cbn [Admission.hotkey_falsy negb]. rewrite orb_false_r.
  reflexivity.
Qed.

Lemma blacklist_not_found (config : Admission.BlacklistConfig number)
      (metagraph : Admission.Metagraph number) (hotkey : option string) :
  (forall h, hotkey = Some h -> ~ In h (Admission.hotkeys metagraph)) ->
  Admission.hotkeys_index metagraph hotkey = inl Admission.ValueError.
Proof.
  intro Hout. unfold Admission.hotkeys_index.
  destruct hotkey as [h|]; [| reflexivity].
  destruct (Admission.index_from 0 (Admission.hotkeys metagraph) h) eqn:Hi;
    [| reflexivity].
  exfalso. apply (Hout h eq_refl).
  apply index_from_some in Hi. destruct Hi as (pre & post & Hl & _).
  rewrite Hl. apply in_or_app. right. now left.
Qed.

End AdmissionFacts.

(** X10. A request whose hotkey is not in the metagraph (or is [None])
    makes [blacklist] raise [ValueError] from the [index] lookup of its
    first line, whatever the configuration, also with
    [allow_non_registered] set; [priority] raises in the same way. *)
Theorem blacklist_unregistered_raises
        (number : Type) (lt : number -> number -> bool)
        (config : Admission.BlacklistConfig number)
        (metagraph : Admission.Metagraph number) (hotkey : option string) :
  (forall h, hotkey = Some h -> ~ In h (Admission.hotkeys metagraph)) ->
  Admission.blacklist lt config metagraph hotkey = inl Admission.ValueError
  /\ Admission.priority metagraph hotkey = inl Admission.ValueError.
Proof.
  intro Hout. unfold Admission.blacklist, Admission.priority.
  now rewrite (blacklist_not_found number config metagraph hotkey Hout).
Qed.

Lemma blacklist_unregistered_raises_witness :
  Admission.blacklist Z.ltb
    {| Admission.allow_non_registered := true;
       Admission.force_validator_permit := false;
       Admission.minimum_stake := 0 |}
    {| Admission.hotkeys := ["5Fa"; "5Gb"];
       Admission.validator_permit := [true; true];
       Admission.S := [10; 20] |}
    (Some "5Hc")
  = inl Admission.ValueError.
Proof.
  refine (proj1 (blacklist_unregistered_raises Z Z.ltb _ _ (Some "5Hc") _)).
  intros h Hh. injection Hh as <-. simpl.
  intros [H | [H | []]]; discriminate.
Defined.

(** X11. The two verdicts for un-registered hotkeys, "Allowing
    un-registered hotkey" and "Unrecognized hotkey", are given exactly
    when the hotkey of the request is the empty string and the empty
    string is a hotkey of the metagraph; the verdict then follows
    [allow_non_registered]. *)
Theorem blacklist_unregistered_verdicts
        (number : Type) (lt : number -> number -> bool)
        (config : Admission.BlacklistConfig number)
        (metagraph : Admission.Metagraph number) (hotkey : option string) :
  (exists b, Admission.blacklist lt config metagraph hotkey
             = inr (b, "Allowing un-registered hotkey")
             \/ Admission.blacklist lt config metagraph hotkey
                = inr (b, "Unrecognized hotkey"))
  <-> hotkey = Some "" /\ In "" (Admission.hotkeys metagraph).
Proof.
  split.
  - intros [b Hb].
    destruct hotkey as [h|];
      [| destruct Hb as [Hb | Hb]; discriminate].
    destruct (Admission.index_from 0 (Admission.hotkeys metagraph) h)
      as [uid|] eqn:Hi.
    + pose proof Hi as Hi'. apply index_from_some in Hi'.
      destruct Hi' as (pre & post & Hl & _).
      rewrite (blacklist_found number lt config metagraph h uid Hi) in Hb.
      destruct (String.eqb_spec h "") as [-> | Hne].
      * split; [reflexivity |]. rewrite Hl. apply in_or_app. right. now left.
      * exfalso.
        destruct (nth_error (Admission.validator_permit metagraph) uid)
          as [[|]|];
          destruct (Admission.force_validator_permit config);
          destruct (nth_error (Admission.S metagraph) uid) as [stake|];
          try destruct (lt stake (Admission.minimum_stake config));
          destruct Hb as [Hb | Hb]; discriminate.
    + exfalso. unfold Admission.blacklist, Admission.hotkeys_index in Hb.
      rewrite Hi in Hb. destruct Hb as [Hb | Hb]; discriminate.
  - intros [-> Hin].
    destruct (Admission.index_from 0 (Admission.hotkeys metagraph) "")
      as [uid|] eqn:Hi.
    + rewrite (blacklist_found number lt config metagraph "" uid Hi).
      simpl. destruct (Admission.allow_non_registered config).
      * exists false. now left.
      * exists true. now right.
    + apply index_from_none in Hi. tauto.
Qed.

(** X12. [blacklist] answers "Hotkey recognized!" exactly when the hotkey
    is a non-empty string found in the metagraph, the uid of its first
    occurrence has a validator permit, and the stake at that uid is not
    below [minimum_stake]; [priority] then returns that stake. *)
Theorem blacklist_recognized
        (number : Type) (lt : number -> number -> bool)
        (config : Admission.BlacklistConfig number)
        (metagraph : Admission.Metagraph number) (hotkey : option string) :
  Admission.blacklist lt config metagraph hotkey
  = inr (false, "Hotkey recognized!")
  <-> exists h uid stake,
      hotkey = Some h /\ h <> ""
      /\ Admission.index_from 0 (Admission.hotkeys metagraph) h = Some uid
      /\ nth_error (Admission.validator_permit metagraph) uid = Some true
      /\ nth_error (Admission.S metagraph) uid = Some stake
      /\ lt stake (Admission.minimum_stake config) = false
      /\ Admission.priority metagraph hotkey = inr stake.
Proof.
  split.
  - intro Hb. destruct hotkey as [h|]; [| discriminate].
    destruct (Admission.index_from 0 (Admission.hotkeys metagraph) h)
      as [uid|] eqn:Hi.
    + rewrite (blacklist_found number lt config metagraph h uid Hi) in Hb.
      destruct (String.eqb_spec h "") as [-> | Hne].
      { destruct (Admission.allow_non_registered config); discriminate. }
      destruct (nth_error (Admission.validator_permit metagraph) uid)
        as [[|]|] eqn:Hp; simpl in Hb.
      * destruct (nth_error (Admission.S metagraph) uid) as [stake|] eqn:Hs;
          [| discriminate].
        destruct (lt stake (Admission.minimum_stake config)) eqn:Hlt;
          [discriminate |].
        exists h, uid, stake. repeat split; try assumption.
        unfold Admission.priority, Admission.hotkeys_index.
        now rewrite Hi, Hs.
      * destruct (Admission.force_validator_permit config); discriminate.
      * discriminate.
    + unfold Admission.blacklist, Admission.hotkeys_index in Hb.
      rewrite Hi in Hb. discriminate.
  - intros (h & uid & stake & -> & Hne & Hi & Hp & Hs & Hlt & _).
    rewrite (blacklist_found number lt config metagraph h uid Hi).
    apply String.eqb_neq in Hne. rewrite Hne, Hp, Hs, Hlt. reflexivity.
Qed.

(** X13. A non-empty hotkey that is listed in the metagraph and whose uid
    (its first position) has no validator permit is never checked for
    stake: when [force_validator_permit] is off it is accepted with
    "Validator permit not required", and when it is on it is refused with
    "Non-validator hotkey", whatever its stake and [minimum_stake]. *)
Theorem blacklist_non_validator
        (number : Type) (lt : number -> number -> bool)
        (config : Admission.BlacklistConfig number)
        (metagraph : Admission.Metagraph number) (h : string) (uid : nat) :
  h <> "" ->
  Admission.index_from 0 (Admission.hotkeys metagraph) h = Some uid ->
  nth_error (Admission.validator_permit metagraph) uid = Some false ->
  Admission.blacklist lt config metagraph (Some h)
  = if Admission.force_validator_permit config
    then inr (true, "Non-validator hotkey")
    else inr (false, "Validator permit not required").
Proof.
  intros Hne Hi Hp.
  rewrite (blacklist_found number lt config metagraph h uid Hi).
  apply String.eqb_neq in Hne. now rewrite Hne, Hp.
Qed.

Lemma blacklist_non_validator_witness :
  Admission.blacklist Z.ltb
    {| Admission.allow_non_registered := false;
       Admission.force_validator_permit := false;
       Admission.minimum_stake := 1000 |}
    {| Admission.hotkeys := ["5Fa"; "5Gb"];
       Admission.validator_permit := [true; false];
       Admission.S := [5000; 0] |}
    (Some "5Gb")
  = inr (false, "Validator permit not required").
Proof.
  refine (blacklist_non_validator Z Z.ltb
            {| Admission.allow_non_registered := false;
               Admission.force_validator_permit := false;
               Admission.minimum_stake := 1000 |}
            {| Admission.hotkeys := ["5Fa"; "5Gb"];
               Admission.validator_permit := [true; false];
               Admission.S := [5000; 0] |}
            "5Gb" 1 _ _ _).
  - discriminate.
  - reflexivity.
  - reflexivity.
Defined.


(** X15. When a hotkey is listed more than once, [priority] reads the
    stake at its first position: with the hotkeys [pre ++ h :: post] and
    [h] not in [pre], the priority of [h] is the stake at index
    [length pre], and [IndexError] when the stakes are fewer. *)
Theorem priority_first_occurrence
        (number : Type) (metagraph : Admission.Metagraph number)
        (h : string) (pre post : list string) :
  Admission.hotkeys metagraph = (pre ++ h :: post)%list ->
  ~ In h pre ->
  Admission.priority metagraph (Some h)
  = match nth_error (Admission.S metagraph) (length pre) with
    | Some stake => inr stake
    | None => inl Admission.IndexError
    end.
Proof.
  intros Hl Hpre. unfold Admission.priority, Admission.hotkeys_index.
  assert (Hi : Admission.index_from 0 (Admission.hotkeys metagraph) h
               = Some (length pre)).
  { apply index_from_some. exists pre, post. repeat split; assumption. }
  now rewrite Hi.
Qed.

Lemma priority_first_occurrence_witness :
  Admission.priority
    {| Admission.hotkeys := ["5Fa"; "5Gb"; "5Fa"; "5Gb"];
       Admission.validator_permit := [true; true; true; true];
       Admission.S := [10; 20; 30; 40] |}
    (Some "5Gb")
  = inr 20.
Proof.
  refine (priority_first_occurrence Z
            {| Admission.hotkeys := ["5Fa"; "5Gb"; "5Fa"; "5Gb"];
               Admission.validator_permit := [true; true; true; true];
               Admission.S := [10; 20; 30; 40] |}
            "5Gb" ["5Fa"] ["5Fa"; "5Gb"] _ _).
  - reflexivity.
  - simpl. intros [H | []]. discriminate.
Defined.

(** ** Detector data and strategy selection *)

(** X16. [download_nltk_data] downloads at most once: it asks for the
    package only when [find] misses the resource, and if the download puts
    the resource in place, a second call finds it, downloads nothing and
    leaves the store as it is. *)
Theorem download_nltk_data_once
        (store : Type) (find : string -> store -> bool)
        (download : string -> store -> store)
        (package_name : string) (st : store) :
  (find ("tokenizers/" ++ package_name) st = false ->
   find ("tokenizers/" ++ package_name) (download package_name st) = true) ->
  let first := NltkData.download_nltk_data find download package_name st in
  let second :=
    NltkData.download_nltk_data find download package_name (fst first) in
  NltkData.downloads (snd first)
  = (if find ("tokenizers/" ++ package_name) st then [] else [package_name])
  /\ find ("tokenizers/" ++ package_name) (fst first) = true
  /\ fst second = fst first
  /\ NltkData.downloads (snd second) = [].
Proof.
  intros Hinstall first second. subst second first.
  unfold NltkData.download_nltk_data.
  destruct (find ("tokenizers/" ++ package_name) st) eqn:Hf.
  - cbn [fst snd]. rewrite Hf. cbn [fst snd]. now repeat split.
  - cbn [fst snd]. rewrite (Hinstall eq_refl). cbn [fst snd].
    now repeat split.
Qed.

Lemma download_nltk_data_once_witness :
  let find := fun (r : string) (st : list string) =>
                existsb (String.eqb r) st in
  let download := fun (p : string) (st : list string) =>
                    ("tokenizers/" ++ p) :: st in
  let first := NltkData.miner_init find download ["corpora/words"] in
  NltkData.downloads (snd first) = ["punkt"]
  /\ NltkData.downloads
       (snd (NltkData.miner_init find download (fst first))) = [].
Proof.
  intros find download first.
  destruct (download_nltk_data_once (list string) find download "punkt"
              ["corpora/words"]) as (H1 & _ & _ & H4).
  - intros _. reflexivity.
  - split; [exact H1 | exact H4].
Defined.

(** X17. The outcome of the download is not checked: when the resource is
    missing and still missing after [nltk.download], [miner_init] of the
    rule-based miner logs the completion of the download as its last
    message and returns with the detector data absent. *)
Theorem miner_init_unchecked_download
        (store : Type) (find : string -> store -> bool)
        (download : string -> store -> store) (st : store) :
  find "tokenizers/punkt" st = false ->
  find "tokenizers/punkt" (download "punkt" st) = false ->
  let r := NltkData.miner_init find download st in
  find "tokenizers/punkt" (fst r) = false
  /\ NltkData.downloads (snd r) = ["punkt"]
  /\ last (snd r) (NltkData.Download "")
     = NltkData.Debug "punkt download completed.".
Proof.
  intros Hmiss Hstill r. subst r.
  unfold NltkData.miner_init, NltkData.download_nltk_data.
  change ("tokenizers/" ++ "punkt") with "tokenizers/punkt".
  rewrite Hmiss. cbn [fst snd]. now repeat split.
Qed.

Lemma miner_init_unchecked_download_witness :
  let find := fun (r : string) (st : list string) =>
                existsb (String.eqb r) st in
  let offline := fun (_ : string) (st : list string) => st in
  find "tokenizers/punkt" (fst (NltkData.miner_init find offline [])) = false.
Proof.
  intros find offline.
  refine (proj1 (miner_init_unchecked_download (list string) find offline []
                   _ _)); reflexivity.
Defined.

Lemma append_cancel_l (a x y : string) : a ++ x = a ++ y -> x = y.
Proof.
  induction a as [|c a IH]; simpl; intro H; [exact H |].
  injection H as H. now apply IH.
Qed.

Lemma append_cancel_r (s : string) :
  forall a b, a ++ s = b ++ s -> a = b.
Proof.
  intro a. induction a as [|c a IH]; intros b H.
  - destruct b as [|d b]; [reflexivity | exfalso].
    apply (f_equal String.length) in H. simpl in H.
    rewrite length_append in H. lia.
  - destruct b as [|d b].
    + exfalso. apply (f_equal String.length) in H. simpl in H.
      rewrite length_append in H. lia.
    + simpl in H. injection H as -> H. f_equal. now apply IH.
Qed.

(** X18. The configured miner name decides the module: distinct names
    give distinct modules, a name gives the module of the default
    (rule-based) miner exactly when it is "punkt", and the two modules of
    the repository are reached exactly by "punkt" (or no name) and by
    "openai". *)
Theorem miner_name_resolution (name : option string) :
  (forall n m,
      Selector.miner_name (Some n) = Selector.miner_name (Some m) -> n = m)
  /\ (Selector.miner_name name = Selector.miner_name None
      <-> name = None \/ name = Some "punkt")
  /\ (Neuron.select name = Some Neuron.Punkt
      <-> Selector.miner_name name = "chunking.miners.punkt_miner")
  /\ (Neuron.select name = Some Neuron.OpenAI
      <-> Selector.miner_name name = "chunking.miners.openai_miner").
Proof.
  assert (Hinj : forall n m,
             Selector.miner_name (Some n) = Selector.miner_name (Some m)
             -> n = m).
  { intros n m H. unfold Selector.miner_name in H.
    apply append_cancel_l in H. now apply append_cancel_r in H. }
  split; [exact Hinj |].
  split; [| split].
  - split.
    + intro H. destruct name as [n|]; [right | now left].
      f_equal. apply Hinj. exact H.
    + intros [-> | ->]; reflexivity.
  - destruct name as [n|]; simpl; [| tauto].
    destruct (String.eqb_spec n "punkt") as [-> | Hne]; [tauto |].
    split.
    + destruct (String.eqb n "openai"); discriminate.
    + intro H. exfalso. apply Hne.
      apply (Hinj n "punkt"). exact H.
  - destruct name as [n|]; simpl.
    + destruct (String.eqb_spec n "punkt") as [-> | Hne].
      * split; discriminate.
      * destruct (String.eqb_spec n "openai") as [-> | Hno]; [tauto |].
        split; [discriminate |].
        intro H. exfalso. apply Hno. apply (Hinj n "openai"). exact H.
    + split; discriminate.
Qed.
